(** * NPS01: the now-playing reporter

  A shallow embedding of [nps01.py]: the text-file parser ([FileParser]),
  the HTTP reporter ([RadioPlayerAPI]), the debounced change handler
  ([FileChangeHandler]) and the start-up sequence ([RadioPlayerMonitor]).

  Python [str] values are sequences of Unicode code points; logging, the
  HTTP request and the observer calls are recorded in a trace; exceptions
  are explicit results.  What the operating system, the clock, the time
  zone database and the remote endpoint answer is read from a [world]. *)

From Stdlib Require Import List NArith ZArith QArith Bool String Ascii Lia Lqa.
Import ListNotations.

Local Open Scope N_scope.
Local Open Scope list_scope.

(** ** Python strings *)

Module PyStr.

Definition char := N.
Definition str := list char.

(** An ASCII literal of the source. *)
Definition py (s : string) : str := map N_of_ascii (list_ascii_of_string s).
Arguments py : simpl never.

Definition is_empty (s : str) : bool :=
  match s with [] => true | _ :: _ => false end.

(** [not s] is true for the empty string, so [truthy] is Python's [bool(s)]. *)
Definition truthy (s : str) : bool := negb (is_empty s).

Fixpoint str_eqb (a b : str) : bool :=
  match a, b with
  | [], [] => true
  | x :: a', y :: b' => (x =? y) && str_eqb a' b'
  | _, _ => false
  end.

(** [str.isspace] on one character: the code points CPython's
    [_PyUnicode_IsWhitespace] accepts. *)
Definition isspace (c : char) : bool :=
  ((0x09 <=? c) && (c <=? 0x0D)) || ((0x1C <=? c) && (c <=? 0x20))
  || (c =? 0x85) || (c =? 0xA0) || (c =? 0x1680)
  || ((0x2000 <=? c) && (c <=? 0x200A))
  || (c =? 0x2028) || (c =? 0x2029) || (c =? 0x202F) || (c =? 0x205F)
  || (c =? 0x3000).

(** The line boundaries of [str.splitlines]. *)
Definition is_linebreak (c : char) : bool :=
  ((0x0A <=? c) && (c <=? 0x0D)) || ((0x1C <=? c) && (c <=? 0x1E))
  || (c =? 0x85) || (c =? 0x2028) || (c =? 0x2029).

Fixpoint lstrip (s : str) : str :=
  match s with
  | [] => []
  | c :: s' => if isspace c then lstrip s' else s
  end.

Definition rstrip (s : str) : str := rev (lstrip (rev s)).

(** [s.strip()] *)
Definition strip (s : str) : str := rstrip (lstrip s).

(** [s.splitlines()]: [cur] is the line being read, last character first;
    [after_cr] says that the previous character was a carriage return, so
    that a line feed right after it belongs to the same boundary. *)
Fixpoint splitlines_from (after_cr : bool) (cur : str) (s : str) : list str :=
  match s with
  | [] => if is_empty cur then [] else [rev cur]
  | c :: s' =>
      if after_cr && (c =? 0x0A) then splitlines_from false cur s'
      else if is_linebreak c then rev cur :: splitlines_from (c =? 0x0D) [] s'
      else splitlines_from false (c :: cur) s'
  end.

Definition splitlines (s : str) : list str := splitlines_from false [] s.

(** Decimal text of a number, [str(n)]. *)
Definition digit (d : N) : char := 48 + d.

Fixpoint digits_from (fuel : nat) (n : N) (acc : str) : str :=
  match fuel with
  | O => acc
  | S fuel' =>
      let acc' := digit (n mod 10) :: acc in
      if n / 10 =? 0 then acc' else digits_from fuel' (n / 10) acc'
  end.

Definition str_of_N (n : N) : str :=
  digits_from (S (N.to_nat (N.log2 n))) n [].

Definition str_of_Z (z : Z) : str :=
  match z with
  | Zneg p => 45 :: str_of_N (Npos p)
  | _ => str_of_N (Z.to_N z)
  end.

(** [s.zfill(w)] for a string of digits. *)
Definition zfill (w : nat) (s : str) : str :=
  repeat 48 (w - List.length s) ++ s.

Definition is_digit (c : char) : bool := (48 <=? c) && (c <=? 57).

End PyStr.
Import PyStr.

(** ** The two regular expressions

  Both patterns of [FileParser] have the shape [^<literal>(.+)$] and are
  compiled with [re.IGNORECASE]. *)

Module Re.

Definition is_ascii_upper (c : char) : bool := (65 <=? c) && (c <=? 90).
Definition is_ascii_lower (c : char) : bool := (97 <=? c) && (c <=? 122).
Definition ascii_lower (c : char) : char :=
  if is_ascii_upper c then c + 32 else c.

(** Does the subject character [c] match the ASCII literal [p] of a
    pattern compiled with [re.IGNORECASE]?  For a letter, [sre] compares
    the lower-case mapping of [c] with the lower-case literal and with the
    characters that share its upper case: besides the two ASCII cases,
    U+0130 and U+0131 match [i], U+017F matches [s] and U+212A matches
    [k].  Any other literal matches itself only. *)
Definition ignorecase_match (p c : char) : bool :=
  let lo := ascii_lower p in
  if is_ascii_lower lo then
    (c =? lo) || (c =? lo - 32)
    || ((lo =? 105) && ((c =? 0x130) || (c =? 0x131)))
    || ((lo =? 115) && (c =? 0x17F))
    || ((lo =? 107) && (c =? 0x212A))
  else c =? p.

(** Match the literal part at the start of the subject; the result is the
    rest of the subject. *)
Fixpoint match_literal (lit subject : str) : option str :=
  match lit with
  | [] => Some subject
  | p :: lit' =>
      match subject with
      | [] => None
      | c :: subject' =>
          if ignorecase_match p c then match_literal lit' subject' else None
      end
  end.

(** The longest prefix without a line feed, and what follows it. *)
Fixpoint span_dot (s : str) : str * str :=
  match s with
  | [] => ([], [])
  | c :: s' =>
      if c =? 0x0A then ([], s)
      else let (v, r) := span_dot s' in (c :: v, r)
  end.

(** [(.+)$]: [.] is any character but a line feed, and [$] holds at the
    end of the subject or before a line feed that ends it.  The result is
    the group. *)
Definition match_group_to_end (s : str) : option str :=
  let (v, r) := span_dot s in
  if is_empty v then None
  else match r with
       | [] => Some v
       | [_] => Some v
       | _ :: _ :: _ => None
       end.

(** A compiled pattern [^<literal>(.+)$], [re.IGNORECASE]. *)
Record Pattern := compile { literal : str }.

(** [pattern.match(line)]; the result is [group(1)] of the match. *)
Definition pattern_match (p : Pattern) (line : str) : option str :=
  match match_literal (literal p) line with
  | Some rest => match_group_to_end rest
  | None => None
  end.

End Re.

(** ** Effects and exceptions *)

Module Py.

(** The exception classes that occur. *)
Inductive exn_class :=
| FileNotFoundError
| PermissionError
| OSError
| UnicodeDecodeError
| UnicodeEncodeError
| ConnectionError
| Timeout
| HTTPError
| TooManyRedirects
| UnknownTimeZoneError
| RuntimeError.

Record exn := mk_exn { class_of : exn_class; message : str }.

(** [isinstance(e, requests.exceptions.RequestException)] *)
Definition is_RequestException (e : exn) : bool :=
  match class_of e with
  | ConnectionError | Timeout | HTTPError | TooManyRedirects => true
  | _ => false
  end.

(** [isinstance(e, IOError)]: [IOError] is [OSError], and
    [RequestException] derives from it. *)
Definition is_IOError (e : exn) : bool :=
  match class_of e with
  | FileNotFoundError | PermissionError | OSError => true
  | _ => is_RequestException e
  end.

Definition is_UnknownTimeZoneError (e : exn) : bool :=
  match class_of e with UnknownTimeZoneError => true | _ => false end.

(** [isinstance(e, Exception)] *)
Definition is_Exception (e : exn) : bool := true.

Inductive level := DEBUG | INFO | WARNING | ERROR.

Definition Path := str.

(** What the program does to the outside, in order. *)
Inductive effect :=
| Log (lvl : level) (msg : str)
| HttpPost (url : str) (auth : str * str) (timeout : N)
| ObserverSchedule (watched_parent_of : Path)
| ObserverStart
| ObserverStop.

Inductive result (A : Type) :=
| Ok (a : A)
| Raise (e : exn).
Arguments Ok {A} a.
Arguments Raise {A} e.

(** A computation: the effects it performed and how it ended. *)
Definition M (A : Type) : Type := list effect * result A.

Definition ret {A} (a : A) : M A := ([], Ok a).
Definition raise {A} (e : exn) : M A := ([], Raise e).
Definition emit (e : effect) : M unit := ([e], Ok tt).

Definition bind {A B} (m : M A) (f : A -> M B) : M B :=
  match m with
  | (t, Ok a) => let (t', r) := f a in (t ++ t', r)
  | (t, Raise e) => (t, Raise e)
  end.

(** [try: body  except <classes> as e: handler e] *)
Definition try_except {A} (body : M A) (classes : exn -> bool)
           (handler : exn -> M A) : M A :=
  match body with
  | (t, Ok a) => (t, Ok a)
  | (t, Raise e) =>
      if classes e then let (t', r) := handler e in (t ++ t', r)
      else (t, Raise e)
  end.

(** [try: body  finally: cleanup] *)
Definition try_finally {A} (body : M A) (cleanup : M unit) : M A :=
  match body with
  | (t, r) =>
      match cleanup with
      | (t', Ok _) => (t ++ t', r)
      | (t', Raise e) => (t ++ t', Raise e)
      end
  end.

Definition trace {A} (m : M A) : list effect := fst m.
Definition outcome {A} (m : M A) : result A := snd m.

Definition logging (lvl : level) (msg : str) : M unit := emit (Log lvl msg).

End Py.
Import Py.

Declare Scope py_scope.
Delimit Scope py_scope with py.
Notation "x <- m ;; k" := (bind m (fun x => k))
(at level 61, m at next level, right associativity) : py_scope.
Notation "m ;; k" := (bind m (fun _ => k))
(at level 61, right associativity) : py_scope.
Local Open Scope py_scope.

(** ** The outside world

  One [world] is what the environment answers while one piece of work (the
  start-up pass, or the handling of one event) runs. *)

Module World.

(** [datetime]: the fields [strftime] prints. *)
Record datetime := mk_datetime {
  year : N; month : N; day : N; hour : N; minute : N; second : N
}.

(** The invariant of Python's [datetime] class. *)
Definition valid_datetime (d : datetime) : bool :=
  (1 <=? year d) && (year d <=? 9999)
  && (1 <=? month d) && (month d <=? 12)
  && (1 <=? day d) && (day d <=? 31)
  && (hour d <=? 23) && (minute d <=? 59) && (second d <=? 59).

(** [d.strftime('%Y-%m-%dT%H:%M:%S')]; [%Y] is the decimal year (four
    digits from the year 1000 on), the other fields are two digits,
    padded with zeros. *)
Definition strftime (d : datetime) : str :=
  str_of_N (year d) ++ py "-" ++ zfill 2 (str_of_N (month d)) ++ py "-"
  ++ zfill 2 (str_of_N (day d)) ++ py "T" ++ zfill 2 (str_of_N (hour d))
  ++ py ":" ++ zfill 2 (str_of_N (minute d)) ++ py ":"
  ++ zfill 2 (str_of_N (second d)).

Inductive tzinfo := UTC | Zone (key : str).

(** What [session.post] ends with: a response, or an exception. *)
Inductive http_result :=
| Response (status_code : N)
| Fails (e : exn).

Record world := mk_world {
  (** [path.exists()] *)
  path_exists : Path -> bool;
  (** [path.open('r', encoding='utf-8')] followed by [read()] *)
  read_text : Path -> result str;
  (** [time.time()], in seconds *)
  time_time : Q;
  (** [pytz.timezone(name)]; [None] stands for [UnknownTimeZoneError] *)
  timezone_db : str -> option tzinfo;
  (** [datetime.now(tz)] *)
  datetime_now : tzinfo -> datetime;
  (** [session.post(url, timeout=...)] with the session's credentials *)
  http_post : str -> str * str -> N -> http_result
}.

Definition open_read (w : world) (p : Path) : M str :=
  match read_text w p with
  | Ok s => ret s
  | Raise e => raise e
  end.

Definition pytz_timezone (w : world) (name : str) : M tzinfo :=
  match timezone_db w name with
  | Some tz => ret tz
  | None => raise (mk_exn UnknownTimeZoneError name)
  end.

Definition session_post (w : world) (url : str) (auth : str * str)
           (timeout : N) : M N :=
  emit (HttpPost url auth timeout) ;;
  match http_post w url auth timeout with
  | Response status => ret status
  | Fails e => raise e
  end.

(** [response.raise_for_status()]: an [HTTPError] for a status from 400 to
    599, nothing otherwise. *)
Definition raise_for_status (status : N) : M unit :=
  if (400 <=? status) && (status <? 500) then
    raise (mk_exn HTTPError (str_of_N status ++ py " Client Error"))
  else if (500 <=? status) && (status <? 600) then
    raise (mk_exn HTTPError (str_of_N status ++ py " Server Error"))
  else ret tt.

End World.
Import World.

(** ** [urllib.parse.quote_plus] *)

Module Urllib.

(** UTF-8 of one code point; surrogates cannot be encoded. *)
Definition utf8_encode_char (c : char) : option (list N) :=
  if c <? 0x80 then Some [c]
  else if c <? 0x800 then
    Some [0xC0 + N.shiftr c 6; 0x80 + N.land c 0x3F]
  else if c <? 0x10000 then
    if (0xD800 <=? c) && (c <=? 0xDFFF) then None
    else Some [0xE0 + N.shiftr c 12; 0x80 + N.land (N.shiftr c 6) 0x3F;
               0x80 + N.land c 0x3F]
  else if c <? 0x110000 then
    Some [0xF0 + N.shiftr c 18; 0x80 + N.land (N.shiftr c 12) 0x3F;
          0x80 + N.land (N.shiftr c 6) 0x3F; 0x80 + N.land c 0x3F]
  else None.

Fixpoint utf8_encode (s : str) : option (list N) :=
  match s with
  | [] => Some []
  | c :: s' =>
      match utf8_encode_char c, utf8_encode s' with
      | Some b, Some bs => Some (b ++ bs)
      | _, _ => None
      end
  end.

(** Letters, digits and [_.-~] are never quoted. *)
Definition always_safe (b : N) : bool :=
  Re.is_ascii_upper b || Re.is_ascii_lower b || is_digit b
  || (b =? 95) || (b =? 46) || (b =? 45) || (b =? 126).

Definition hex_digit (d : N) : char := if d <? 10 then 48 + d else 55 + d.

(** One byte of the encoded text: kept, [+] for a space, or [%XX]. *)
Definition quote_byte (b : N) : str :=
  if always_safe b then [b]
  else if b =? 32 then [43]
  else [37; hex_digit (b / 16); hex_digit (b mod 16)].

Definition quote_plus (s : str) : M str :=
  match utf8_encode s with
  | Some bytes => ret (flat_map quote_byte bytes)
  | None => raise (mk_exn UnicodeEncodeError (py "surrogates not allowed"))
  end.

End Urllib.

(** ** [class Config] *)

Module Config.

Record t := mk {
  api_username : str;
  api_password : str;
  api_endpoint : str;
  file_path : Path;
  rpuid : Z;
  timezone : str;
  log_level : str
}.

End Config.

(** ** [class FileParser] *)

Module FileParser.

Definition ARTIST_PATTERN : Re.Pattern := Re.compile (py "Artist: ").
Definition TITLE_PATTERN : Re.Pattern := Re.compile (py "Title: ").

(** The loop of [_extract_metadata] over the remaining lines, with the
    current values of [artist] and [title]. *)
Fixpoint extract_loop (lines : list str) (artist title : option str)
  : option str * option str :=
  match lines with
  | [] => (artist, title)
  | line :: rest =>
      let line := strip line in
      if is_empty line then extract_loop rest artist title
      else
        match Re.pattern_match ARTIST_PATTERN line with
        | Some group1 => extract_loop rest (Some (strip group1)) title
        | None =>
            match Re.pattern_match TITLE_PATTERN line with
            | Some group1 => extract_loop rest artist (Some (strip group1))
            | None => extract_loop rest artist title
            end
        end
  end.

Definition _extract_metadata (content : str) : option str * option str :=
  extract_loop (splitlines content) None None.

Definition parse_file (w : world) (file_path : Path)
  : M (option str * option str) :=
  if negb (path_exists w file_path) then
    raise (mk_exn FileNotFoundError (py "File not found: " ++ file_path))
  else
    try_except
      (content <- open_read w file_path ;;
       let content := strip content in
       if is_empty content then
         logging WARNING (py "File is empty") ;;
         ret (None, None)
       else ret (_extract_metadata content))
      is_IOError
      (fun e =>
         raise (mk_exn OSError
                  (py "Error reading file " ++ file_path ++ py ": "
                      ++ message e))).

End FileParser.

(** ** [class RadioPlayerAPI] *)

Module RadioPlayerAPI.

Definition _validate_metadata (artist title : str) : M bool :=
  if negb (truthy artist) || negb (truthy title) then
    logging WARNING (py "Missing artist or title data") ;;
    ret false
  else if (N.of_nat (List.length (strip artist)) =? 0)
          || (N.of_nat (List.length (strip title)) =? 0) then
    logging WARNING (py "Empty artist or title after stripping whitespace") ;;
    ret false
  else ret true.

Definition _get_current_timestamp (config : Config.t) (w : world) : M str :=
  try_except
    (tz <- pytz_timezone w (Config.timezone config) ;;
     let now := datetime_now w tz in
     ret (strftime now))
    is_UnknownTimeZoneError
    (fun _ =>
       logging WARNING
         (py "Unknown timezone " ++ Config.timezone config ++ py ", using UTC") ;;
       let now := datetime_now w UTC in
       ret (strftime now)).

Definition _build_url (config : Config.t) (artist title timestamp : str)
  : M str :=
  artist_encoded <- Urllib.quote_plus artist ;;
  title_encoded <- Urllib.quote_plus title ;;
  ret (Config.api_endpoint config ++ py "?"
       ++ py "rpuid=" ++ str_of_Z (Config.rpuid config) ++ py "&"
       ++ py "startTime=" ++ timestamp ++ py "&"
       ++ py "title=" ++ title_encoded ++ py "&"
       ++ py "artist=" ++ artist_encoded).

Definition post_now_playing (config : Config.t) (w : world)
           (artist title : str) : M bool :=
  valid <- _validate_metadata artist title ;;
  if negb valid then ret false
  else
    timestamp <- _get_current_timestamp config w ;;
    url <- _build_url config artist title timestamp ;;
    try_except
      (logging DEBUG (py "POST Request: " ++ url) ;;
       response <- session_post w url
                     (Config.api_username config, Config.api_password config)
                     30 ;;
       raise_for_status response ;;
       logging INFO (py "Successfully posted: " ++ artist ++ py " - " ++ title) ;;
       ret true)
      is_RequestException
      (fun e =>
         logging ERROR (py "API request failed: " ++ message e) ;;
         ret false).

End RadioPlayerAPI.

(** ** [class FileChangeHandler] *)

Module FileChangeHandler.

(** The handler's fields; [self.last_modified] is the one that changes.
    The readings of [time.time()] are taken as the rationals they are: the
    difference of two readings a few seconds apart is exact in floating
    point, and so is the difference with the initial [0]. *)
Record t := mk {
  file_path : Path;
  api_client : Config.t;
  last_modified : Q
}.

(** A [watchdog] event. *)
Record event := mk_event { is_directory : bool; src_path : Path }.

Definition __init__ (file_path : Path) (api_client : Config.t) : t :=
  mk file_path api_client 0%Q.

Definition set_last_modified (self : t) (v : Q) : t :=
  mk (file_path self) (api_client self) v.

(** [a < b] on the clock's readings *)
Definition Qltb (a b : Q) : bool := negb (Qle_bool b a).

Definition _process_file_change (self : t) (w : world) : M unit :=
  try_except
    (logging INFO (py "File changed: " ++ file_path self) ;;
     parsed <- FileParser.parse_file w (file_path self) ;;
     match parsed with
     | (Some artist, Some title) =>
         if truthy artist && truthy title then
           logging INFO (py "Extracted - Artist: '" ++ artist
                            ++ py "', Title: '" ++ title ++ py "'") ;;
           _ <- RadioPlayerAPI.post_now_playing (api_client self) w
                  artist title ;;
           ret tt
         else
           logging WARNING
             (py "Could not extract valid artist and title from file")
     | _ =>
         logging WARNING
           (py "Could not extract valid artist and title from file")
     end)
    is_Exception
    (fun e => logging ERROR (py "Error processing file change: " ++ message e)).

(** [on_modified]: the handler after the event. *)
Definition on_modified (self : t) (ev : event) (w : world) : M t :=
  if is_directory ev then ret self
  else if negb (str_eqb (src_path ev) (file_path self)) then ret self
  else
    let current_time := time_time w in
    if Qltb (current_time - last_modified self)%Q 1%Q then ret self
    else
      let self := set_last_modified self current_time in
      _process_file_change self w ;;
      ret self.

(** The observer thread hands the events to the handler one after the
    other, each in the world of its moment; an exception that left
    [on_modified] would end the thread. *)
Fixpoint dispatch (self : t) (events : list (event * world)) : M t :=
  match events with
  | [] => ret self
  | (ev, w) :: rest =>
      self' <- on_modified self ev w ;;
      dispatch self' rest
  end.

End FileChangeHandler.

(** ** [class RadioPlayerMonitor] *)

Module RadioPlayerMonitor.

Definition _process_initial_file (config : Config.t) (w : world) : M unit :=
  try_except
    (parsed <- FileParser.parse_file w (Config.file_path config) ;;
     match parsed with
     | (Some artist, Some title) =>
         if truthy artist && truthy title then
           logging INFO (py "Initial file content - Artist: '" ++ artist
                            ++ py "', Title: '" ++ title ++ py "'") ;;
           _ <- RadioPlayerAPI.post_now_playing config w artist title ;;
           ret tt
         else
           logging WARNING (py "No valid artist/title found in initial file")
     | _ =>
         logging WARNING (py "No valid artist/title found in initial file")
     end)
    is_Exception
    (fun e => logging ERROR (py "Error processing initial file: " ++ message e)).

(** [stop_monitoring]; [observer] says whether [self.observer] is set. *)
Definition stop_monitoring (observer : bool) : M unit :=
  if observer then
    emit ObserverStop ;;
    logging INFO (py "File monitoring stopped")
  else ret tt.

(** The body of [start_monitoring] up to the loop that sleeps: the check
    that the file exists, the initial pass and the subscription.  The
    result is the handler that was scheduled. *)
Definition startup (config : Config.t) (w : world) : M FileChangeHandler.t :=
  (if negb (path_exists w (Config.file_path config)) then
     raise (mk_exn FileNotFoundError
              (py "File not found: " ++ Config.file_path config))
   else ret tt) ;;
  _process_initial_file config w ;;
  let event_handler :=
    FileChangeHandler.__init__ (Config.file_path config) config in
  emit (ObserverSchedule (Config.file_path config)) ;;
  emit ObserverStart ;;
  logging INFO (py "Started monitoring: " ++ Config.file_path config) ;;
  ret event_handler.

(** [start_monitoring], run in the world [w] of the start, then with the
    [events] the observer delivers until the interrupt arrives. *)
Definition start_monitoring (config : Config.t) (w : world)
           (events : list (FileChangeHandler.event * world)) : M unit :=
  let observer :=
    match outcome (startup config w) with Ok _ => true | Raise _ => false end in
  try_finally
    (try_except
       (event_handler <- startup config w ;;
        _ <- FileChangeHandler.dispatch event_handler events ;;
        logging INFO (py "Received interrupt signal, stopping..."))
       is_Exception
       (fun e =>
          logging ERROR (py "Failed to start monitoring: " ++ message e) ;;
          raise e))
    (stop_monitoring observer).

End RadioPlayerMonitor.

(** ** Vocabulary of the properties *)

Module Props.

(** The requests a trace sent, in order. *)
Fixpoint http_posts (t : list effect) : list str :=
  match t with
  | [] => []
  | HttpPost url _ _ :: t' => url :: http_posts t'
  | _ :: t' => http_posts t'
  end.

(** The subject characters [L] spell the label [label] in some letter
    case, as [re.IGNORECASE] understands it. *)
Definition spells (label L : str) : Prop :=
  Forall2 (fun p c => Re.ignorecase_match p c = true) label L.

(** The line is the label, a colon, one space and the group [g], which
    is not empty and has no line feed; a line feed may end the line. *)
Definition label_line (label line g : str) : Prop :=
  exists L tail,
    line = L ++ py ": " ++ g ++ tail
    /\ spells label L
    /\ g <> []
    /\ ~ In 0x0A g
    /\ (tail = [] \/ tail = [0x0A]).

(** The reading that allows one space and no more between the colon and
    the value: the value [v] does not start with a space. *)
Definition one_space_line (label line : str) : Prop :=
  exists L v c,
    line = L ++ py ": " ++ c :: v
    /\ spells label L
    /\ c <> 32.

(** Does the line (trimmed, as the loop does) match the pattern? *)
Definition matches (p : Re.Pattern) (line : str) : Prop :=
  exists g, Re.pattern_match p (strip line) = Some g.

Definition no_match (p : Re.Pattern) (line : str) : Prop :=
  Re.pattern_match p (strip line) = None.

(** [line] is the last of [lines] that matches [p], with group [g]. *)
Definition last_match (p : Re.Pattern) (lines : list str) (g : str) : Prop :=
  exists before line after,
    lines = before ++ line :: after
    /\ Re.pattern_match p (strip line) = Some g
    /\ Forall (no_match p) after.

(** One item of the shape of a timestamp: a digit or a given character. *)
Inductive item := Digit | Lit (c : char).

Fixpoint fullmatch (shape : list item) (s : str) : bool :=
  match shape, s with
  | [], [] => true
  | Digit :: shape', c :: s' => is_digit c && fullmatch shape' s'
  | Lit l :: shape', c :: s' => (c =? l) && fullmatch shape' s'
  | _, _ => false
  end.

(** [\d{4}-\d{2}-\d{2}T\d{2}:\d{2}:\d{2}], with ASCII digits. *)
Definition TIMESTAMP_SHAPE : list item :=
  [Digit; Digit; Digit; Digit; Lit 45; Digit; Digit; Lit 45; Digit; Digit;
   Lit 84; Digit; Digit; Lit 58; Digit; Digit; Lit 58; Digit; Digit].

(** [P] holds of every number below [k]. *)
Fixpoint all_below (k : nat) (P : N -> bool) : bool :=
  match k with
  | O => true
  | S k' => P (N.of_nat k') && all_below k' P
  end.

(** The world in which every time zone name resolves to UTC. *)
Definition with_utc (w : world) : world :=
  mk_world (path_exists w) (read_text w) (time_time w)
           (fun _ => Some UTC) (datetime_now w) (http_post w).

(** The credentials of the session. *)
Definition auth (config : Config.t) : str * str :=
  (Config.api_username config, Config.api_password config).

(** What [post_now_playing] returns for the answer of the endpoint. *)
Definition classify (r : http_result) : result bool :=
  match r with
  | Response status =>
      if (400 <=? status) && (status <? 600) then Ok false else Ok true
  | Fails e => if is_RequestException e then Ok false else Raise e
  end.

(** The state of the handler after an event: the clock alone decides. *)
Definition after_event (self : FileChangeHandler.t)
           (ev_w : FileChangeHandler.event * world) : FileChangeHandler.t :=
  let (ev, w) := ev_w in
  if FileChangeHandler.is_directory ev then self
  else if negb (str_eqb (FileChangeHandler.src_path ev)
                        (FileChangeHandler.file_path self)) then self
  else if FileChangeHandler.Qltb
            (time_time w - FileChangeHandler.last_modified self)%Q 1%Q
       then self
       else FileChangeHandler.set_last_modified self (time_time w).

(** A stored value is solid when it is not empty and trimming leaves
    something of it. *)
Definition solid (o : option str) : Prop :=
  match o with
  | Some x => x <> [] /\ strip x <> []
  | None => True
  end.

(** Nothing is left of the string once trimmed. *)
Definition blank (s : str) : bool := is_empty (strip s).

(** The time zone the timestamp is taken in. *)
Definition resolved_zone (config : Config.t) (w : world) : tzinfo :=
  match timezone_db w (Config.timezone config) with
  | Some tz => tz
  | None => UTC
  end.

(** The warning that goes with the fall-back to UTC. *)
Definition zone_warning (config : Config.t) (w : world) : list effect :=
  match timezone_db w (Config.timezone config) with
  | Some _ => []
  | None =>
      [Log WARNING
         (py "Unknown timezone " ++ Config.timezone config ++ py ", using UTC")]
  end.

(** The last step of [post_now_playing]: the request for [url] and its
    classification. *)
Definition request (config : Config.t) (w : world) (artist title url : str)
  : M bool :=
  try_except
    (logging DEBUG (py "POST Request: " ++ url) ;;
     response <- session_post w url
                   (Config.api_username config, Config.api_password config) 30 ;;
     raise_for_status response ;;
     logging INFO (py "Successfully posted: " ++ artist ++ py " - " ++ title) ;;
     ret true)
    is_RequestException
    (fun e => logging ERROR (py "API request failed: " ++ message e) ;; ret false).

(** Is the event handed on to [_process_file_change]? *)
Definition accepted (self : FileChangeHandler.t)
           (ev : FileChangeHandler.event) (w : world) : bool :=
  negb (FileChangeHandler.is_directory ev)
  && str_eqb (FileChangeHandler.src_path ev) (FileChangeHandler.file_path self)
  && negb (FileChangeHandler.Qltb
             (time_time w - FileChangeHandler.last_modified self)%Q 1%Q).

(** Every character of the string is white space. *)
Definition all_space (s : str) : Prop := Forall (fun c => isspace c = true) s.

(** An event that concerns the watched file itself. *)
Definition eligible (self : FileChangeHandler.t)
           (ev : FileChangeHandler.event) : Prop :=
  FileChangeHandler.is_directory ev = false
  /\ FileChangeHandler.src_path ev = FileChangeHandler.file_path self.

End Props.
Import Props.

(** ** Concrete configurations and worlds *)

Module Examples.

Definition watched : Path := py "/var/lib/radio/nowplaying.txt".

Definition config : Config.t :=
  Config.mk (py "station") (py "secret") (py "https://np.example.org/api")
            watched 1042 (py "Europe/London") (py "INFO").

Definition noon : datetime := mk_datetime 2024 6 1 12 0 0.

(** A world in which the watched file holds [text], the endpoint gives
    [answer], the time zone database is [zones] and the clock reads
    [clock]. *)
Definition world_with (text : str) (answer : http_result)
           (zones : str -> option tzinfo) (clock : Q) : world :=
  mk_world (fun _ => true) (fun _ => Ok text) clock zones
           (fun _ => noon) (fun _ _ _ => answer).

Definition london (name : str) : option tzinfo := Some (Zone name).
Definition unknown_zone (name : str) : option tzinfo := None.

Definition queen : str :=
  py "Artist: Queen" ++ [0x0A] ++ py "Title: Bohemian Rhapsody" ++ [0x0A].

Definition handler : FileChangeHandler.t :=
  FileChangeHandler.__init__ watched config.

(** A world in which the watched file cannot be read. *)
Definition unreadable : world :=
  mk_world (fun _ => true)
           (fun _ => Raise (mk_exn PermissionError (py "Permission denied")))
           1700000000%Q london (fun _ => noon) (fun _ _ _ => Response 200).

End Examples.

(** ** [Config.__init__], [RadioPlayerMonitor.__init__] and [main] *)

Module Bootstrap.

(** What the process finds when it starts: the environment variables as
    they are after [load_dotenv()], and the built-ins the configuration
    goes through, which are taken as they come. *)
Record runtime := mk_runtime {
  (** [os.getenv(key)] *)
  getenv : str -> option str;
  (** [int(s)]: the number, or the message of the [ValueError] *)
  int_of : str -> Z + str;
  (** [Path(s)] *)
  path_of : str -> Path;
  (** [s.upper()] *)
  upper : str -> str;
  (** [getattr(logging, name)] handed to [logging.basicConfig]: the message
      of the exception when one of the two raises *)
  basicConfig : str -> option str
}.

(** The object that was built, or the [ValueError] raised instead. *)
Inductive built (A : Type) :=
| Built (a : A)
| ValueError (msg : str).
Arguments Built {A} a.
Arguments ValueError {A} msg.

Definition and_then {A B} (b : built A) (f : A -> built B) : built B :=
  match b with
  | Built a => f a
  | ValueError msg => ValueError msg
  end.

Definition _get_required_env (rt : runtime) (key : str) : built str :=
  match getenv rt key with
  | Some value =>
      if negb (truthy value) then
        ValueError (py "Required environment variable " ++ key
                       ++ py " is not set")
      else Built value
  | None =>
      ValueError (py "Required environment variable " ++ key
                     ++ py " is not set")
  end.

Definition _get_env (rt : runtime) (key default : str) : str :=
  match getenv rt key with
  | Some value => value
  | None => default
  end.

(** [Config.__init__] *)
Definition Config__init__ (rt : runtime) : built Config.t :=
  and_then (_get_required_env rt (py "API_USERNAME")) (fun api_username =>
  and_then (_get_required_env rt (py "API_KEY")) (fun api_password =>
  and_then (_get_required_env rt (py "API_ENDPOINT")) (fun api_endpoint =>
  and_then (_get_required_env rt (py "FILE_PATH")) (fun file_path =>
  and_then (_get_required_env rt (py "RPUID")) (fun rpuid_text =>
  match int_of rt rpuid_text with
  | inr msg => ValueError msg
  | inl rpuid =>
      Built (Config.mk api_username api_password api_endpoint
               (path_of rt file_path) rpuid
               (_get_env rt (py "TIMEZONE") (py "UTC"))
               (upper rt (_get_env rt (py "LOG_LEVEL") (py "INFO"))))
  end))))).


(** The variable is set, to a value that is not empty. *)
Definition provided (rt : runtime) (key : str) : Prop :=
  exists value, getenv rt key = Some value /\ value <> [].

(** The variables [Config.__init__] asks for, in the order it asks. *)
Definition REQUIRED : list str :=
  [py "API_USERNAME"; py "API_KEY"; py "API_ENDPOINT"; py "FILE_PATH";
   py "RPUID"].

(** A runtime for examples: the variables are those of the list, [1042]
    is the one text that is a number, a path and an upper-case text are
    what they were, and the logging level is accepted. *)
Fixpoint lookup (vars : list (str * str)) (key : str) : option str :=
  match vars with
  | [] => None
  | (k, v) :: vars' => if str_eqb k key then Some v else lookup vars' key
  end.

Definition runtime_of (vars : list (str * str)) : runtime :=
  mk_runtime (lookup vars)
             (fun s => if str_eqb s (py "1042") then inl 1042%Z
                       else inr (py "invalid literal for int() with base 10"))
             (fun s => s) (fun s => s) (fun _ => None).

End Bootstrap.

(** ** What a trace shows *)

Module Observed.

(** The requests of a trace with their credentials and time limit. *)
Fixpoint requests (t : list effect) : list (str * (str * str) * N) :=
  match t with
  | [] => []
  | HttpPost url a limit :: t' => (url, a, limit) :: requests t'
  | _ :: t' => requests t'
  end.

Definition is_observer_call (e : effect) : bool :=
  match e with
  | ObserverSchedule _ | ObserverStart | ObserverStop => true
  | _ => false
  end.

(** The calls to the observer, in order. *)
Definition observer_calls (t : list effect) : list effect :=
  filter is_observer_call t.

(** The characters an encoded value is made of: the unreserved ones, the
    plus sign and the percent sign. *)
Definition url_char (c : char) : bool :=
  Urllib.always_safe c || (c =? 43) || (c =? 37).

(** A code point UTF-8 can carry: below U+110000 and not a surrogate. *)
Definition encodable_char (c : char) : bool :=
  (c <? 0x110000) && negb ((0xD800 <=? c) && (c <=? 0xDFFF)).

Definition encodable (s : str) : bool := forallb encodable_char s.

(** The lines, each ended by a line feed. *)
Definition unlines (lines : list str) : str :=
  flat_map (fun l => l ++ [0x0A]) lines.

(** A line that holds no line boundary. *)
Definition one_line (l : str) : Prop :=
  Forall (fun c => is_linebreak c = false) l.

(** A stored value is clean when it is not empty and trimming leaves it
    as it is. *)
Definition clean (o : option str) : Prop :=
  match o with
  | Some x => x <> [] /\ strip x = x
  | None => True
  end.

(** Does the event concern the watched file itself? *)
Definition eligibleb (self : FileChangeHandler.t)
           (ev : FileChangeHandler.event) : bool :=
  negb (FileChangeHandler.is_directory ev)
  && str_eqb (FileChangeHandler.src_path ev) (FileChangeHandler.file_path self).

(** The events that are handed on to [_process_file_change], each with the
    handler and the world it is processed in. *)
Fixpoint processed (self : FileChangeHandler.t)
         (events : list (FileChangeHandler.event * world))
  : list (FileChangeHandler.t * world) :=
  match events with
  | [] => []
  | (ev, w) :: rest =>
      let self' := after_event self (ev, w) in
      if accepted self ev w then (self', w) :: processed self' rest
      else processed self' rest
  end.

(** Each time is a second or more after the one before it, the first
    after [last]. *)
Fixpoint spaced (last : Q) (times : list Q) : Prop :=
  match times with
  | [] => True
  | t :: rest => (1 <= t - last)%Q /\ spaced t rest
  end.

(** The request of a configuration: its credentials, the time limit of 30
    seconds, and a URL that starts with the endpoint and the station. *)
Definition configured (config : Config.t) (r : str * (str * str) * N) : Prop :=
  let '(url, a, limit) := r in
  a = (Config.api_username config, Config.api_password config)
  /\ limit = 30
  /\ exists rest,
      url = Config.api_endpoint config ++ py "?rpuid="
              ++ str_of_Z (Config.rpuid config) ++ py "&startTime=" ++ rest.

Definition is_log (e : effect) : bool :=
  match e with
  | Log _ _ => true
  | _ => false
  end.

(** A trace of log lines around at most one request, which is then a
    request of the configuration. *)
Definition one_pass (config : Config.t) (t : list effect) : Prop :=
  exists logs1 mid logs2,
    t = logs1 ++ mid ++ logs2
    /\ forallb is_log logs1 = true
    /\ forallb is_log logs2 = true
    /\ (mid = []
        \/ exists url limit,
             mid = [HttpPost url (Config.api_username config,
                                  Config.api_password config) limit]
             /\ configured config
                  (url, (Config.api_username config,
                         Config.api_password config), limit)).

End Observed.
Import Observed.

(** * Properties *)

(** ** Strings *)

Section Strings.

Lemma str_eqb_eq (a b : str) : str_eqb a b = true <-> a = b.
Proof.
  revert b; induction a as [|x a IH]; intros [|y b]; simpl;
    try (split; [discriminate | discriminate]); try tauto.
  rewrite andb_true_iff, N.eqb_eq, IH.
  split; [intros [-> ->]; reflexivity | intros H; inversion H; auto].
Qed.

Lemma lstrip_head (s : str) c r : lstrip s = c :: r -> isspace c = false.
Proof.
  induction s as [|x s IH]; simpl; [discriminate|].
  destruct (isspace x) eqn:E; auto.
  intros H; inversion H; subst; exact E.
Qed.

Lemma lstrip_keep (c : char) (r : str) :
  isspace c = false -> lstrip (c :: r) = c :: r.
Proof. intros E; simpl; rewrite E; reflexivity. Qed.

Lemma lstrip_snoc (r : str) (c : char) :
  isspace c = false -> exists r', lstrip (r ++ [c]) = r' ++ [c].
Proof.
  intros E; induction r as [|x r IH]; simpl.
  - rewrite E; exists []; reflexivity.
  - destruct (isspace x); [exact IH | exists (x :: r); reflexivity].
Qed.

Lemma rstrip_snoc (r : str) (c : char) :
  isspace c = false -> rstrip (r ++ [c]) = r ++ [c].
Proof.
  intros E; unfold rstrip.
  rewrite rev_app_distr; simpl rev at 2; simpl app.
  rewrite lstrip_keep by exact E.
  simpl; rewrite rev_involutive; reflexivity.
Qed.

(** A trimmed string ends with a character that is not white space. *)
Lemma strip_last (s r : str) (c : char) :
  strip s = r ++ [c] -> isspace c = false.
Proof.
  unfold strip, rstrip; intros H.
  apply (f_equal (@rev char)) in H.
  rewrite rev_involutive, rev_app_distr in H; simpl in H.
  exact (lstrip_head _ _ _ H).
Qed.

(** Trimming keeps a string that ends with such a character non-empty. *)
Lemma strip_snoc (r : str) (c : char) :
  isspace c = false -> exists r', strip (r ++ [c]) = r' ++ [c].
Proof.
  intros E; destruct (lstrip_snoc r c E) as [r' Hr'].
  exists r'; unfold strip; rewrite Hr'; apply rstrip_snoc; exact E.
Qed.

Lemma snoc_not_nil {A} (r : list A) (c : A) : r ++ [c] <> [].
Proof. destruct r; discriminate. Qed.

Lemma nonempty_snoc {A} (s : list A) :
  s <> [] -> exists r c, s = r ++ [c].
Proof.
  intros H; destruct (exists_last H) as [r [c ->]]; eauto.
Qed.

Lemma is_empty_false (s : str) : is_empty s = false <-> s <> [].
Proof. destruct s; simpl; split; congruence. Qed.

End Strings.

(** ** The patterns *)

Section Patterns.

Lemma match_literal_spec (lit s rest : str) :
  Re.match_literal lit s = Some rest <->
  exists L, s = L ++ rest /\ spells lit L.
Proof.
  revert s; induction lit as [|p lit IH]; intros s; simpl.
  - split.
    + intros H; inversion H; subst; exists []; split; [reflexivity | constructor].
    + intros [L [-> HL]]; inversion HL; reflexivity.
  - destruct s as [|c s].
    + split; [discriminate|].
      intros [L [HL HS]]; inversion HS; subst; discriminate.
    + destruct (Re.ignorecase_match p c) eqn:E.
      * rewrite IH; split.
        -- intros [L [-> HL]]; exists (c :: L); split; [reflexivity|].
           constructor; assumption.
        -- intros [L [HL HS]]; inversion HS; subst.
           inversion HL; subst; eauto.
      * split; [discriminate|].
        intros [L [HL HS]]; inversion HS; subst.
        inversion HL; subst; congruence.
Qed.

Lemma span_dot_spec (s v r : str) :
  Re.span_dot s = (v, r) ->
  s = v ++ r /\ ~ In 0x0A v /\ (r = [] \/ exists r', r = 0x0A :: r').
Proof.
  revert v r; induction s as [|c s IH]; intros v r; simpl.
  - intros H; inversion H; subst; auto.
  - destruct (N.eqb_spec c 0x0A) as [->|Hc].
    + intros H; inversion H; subst; simpl; intuition eauto.
    + destruct (Re.span_dot s) as [v' r'] eqn:E.
      intros H; inversion H; subst.
      destruct (IH v' r eq_refl) as [-> [Hv Hr]].
      split; [reflexivity|]; split; [|exact Hr].
      simpl; intros [H1|H1]; [congruence | contradiction].
Qed.

Lemma span_dot_clean (g tail : str) :
  ~ In 0x0A g -> (tail = [] \/ exists r', tail = 0x0A :: r') ->
  Re.span_dot (g ++ tail) = (g, tail).
Proof.
  intros Hg Ht; induction g as [|c g IH]; simpl.
  - destruct Ht as [->|[r' ->]]; reflexivity.
  - destruct (N.eqb_spec c 0x0A) as [->|Hc].
    + exfalso; apply Hg; left; reflexivity.
    + rewrite IH; [reflexivity|]; intros H; apply Hg; right; exact H.
Qed.

Lemma match_group_to_end_spec (s g : str) :
  Re.match_group_to_end s = Some g <->
  g <> [] /\ ~ In 0x0A g /\ (s = g \/ s = g ++ [0x0A]).
Proof.
  unfold Re.match_group_to_end; split.
  - destruct (Re.span_dot s) as [v r] eqn:E.
    destruct (span_dot_spec _ _ _ E) as [-> [Hv Hr]].
    destruct v as [|c v]; simpl; [discriminate|].
    destruct r as [|x [|y r]]; try discriminate;
      intros H; inversion H; subst; (split; [discriminate|]); split; auto.
    + left; rewrite app_nil_r; reflexivity.
    + right; destruct Hr as [Hr|[r' Hr]]; [discriminate|].
      inversion Hr; reflexivity.
  - intros [Hg [Hn [->| ->]]].
    + rewrite <- (app_nil_r g) at 1.
      rewrite span_dot_clean by auto.
      destruct g; [congruence | reflexivity].
    + rewrite span_dot_clean by eauto.
      destruct g; [congruence | reflexivity].
Qed.

(** What a match of either pattern means for the line. *)
Lemma pattern_match_spec (label line g : str) :
  Re.pattern_match (Re.compile (label ++ py ": ")) line = Some g <->
  label_line label line g.
Proof.
  unfold Re.pattern_match, label_line; simpl Re.literal; split.
  - destruct (Re.match_literal (label ++ py ": ") line) as [rest|] eqn:E;
      [|discriminate].
    apply match_literal_spec in E; destruct E as [L [-> HL]].
    apply Forall2_app_inv_l in HL.
    destruct HL as [L1 [L2 [H1 [H2 ->]]]].
    intros H; apply match_group_to_end_spec in H.
    destruct H as [Hg [Hn Hs]].
    assert (L2 = py ": ") as ->.
    { inversion H2 as [|? c1 ? l1 Hc1 H3]; subst.
      inversion H3 as [|? c2 ? l2 Hc2 H4]; subst.
      inversion H4; subst.
      apply N.eqb_eq in Hc1, Hc2; subst; reflexivity. }
    destruct Hs as [->| ->].
    + exists L1, []; rewrite app_nil_r, <- app_assoc; repeat split; auto.
    + exists L1, [0x0A]; rewrite <- app_assoc; repeat split; auto.
  - intros [L [tail [-> [HL [Hg [Hn Ht]]]]]].
    assert (E : Re.match_literal (label ++ py ": ")
                  (L ++ py ": " ++ g ++ tail) = Some (g ++ tail)).
    { apply match_literal_spec; exists (L ++ py ": "); split.
      - rewrite <- app_assoc; reflexivity.
      - apply Forall2_app; [exact HL|].
        repeat constructor. }
    rewrite E; apply match_group_to_end_spec.
    destruct Ht as [->| ->]; rewrite ?app_nil_r; auto.
Qed.

Lemma ARTIST_PATTERN_spec (line g : str) :
  Re.pattern_match FileParser.ARTIST_PATTERN line = Some g <->
  label_line (py "Artist") line g.
Proof. exact (pattern_match_spec (py "Artist") line g). Qed.

Lemma TITLE_PATTERN_spec (line g : str) :
  Re.pattern_match FileParser.TITLE_PATTERN line = Some g <->
  label_line (py "Title") line g.
Proof. exact (pattern_match_spec (py "Title") line g). Qed.

(** A letter of the subject matches the same letter of the pattern in
    either ASCII case. *)
Lemma ascii_case_match (p c : char) :
  Re.is_ascii_lower (Re.ascii_lower p) = true ->
  Re.ascii_lower c = Re.ascii_lower p ->
  Re.ignorecase_match p c = true.
Proof.
  unfold Re.ignorecase_match; intros Hl Hc; rewrite Hl, <- Hc.
  rewrite !orb_true_iff; do 3 left; rewrite !N.eqb_eq.
  unfold Re.ascii_lower, Re.is_ascii_upper.
  destruct (N.leb_spec 65 c), (N.leb_spec c 90); cbn [andb]; lia.
Qed.

Lemma ascii_case_spells (label L : str) :
  Forall (fun p => Re.is_ascii_lower (Re.ascii_lower p) = true) label ->
  map Re.ascii_lower L = map Re.ascii_lower label ->
  spells label L.
Proof.
  intros Hlab; revert L; induction Hlab as [|p label Hp _ IH]; intros L HL.
  - destruct L; [constructor | discriminate HL].
  - destruct L as [|c L]; [discriminate HL|].
    inversion HL; constructor; [apply ascii_case_match; assumption|].
    apply IH; assumption.
Qed.

(** No character matches both the [A] of one label and the [T] of the other. *)
Lemma initials_apart (c : char) :
  Re.ignorecase_match 65 c = true -> Re.ignorecase_match 84 c = false.
Proof.
  unfold Re.ignorecase_match.
  change (Re.ascii_lower 65) with 97; change (Re.ascii_lower 84) with 116.
  change (Re.is_ascii_lower 97) with true; change (Re.is_ascii_lower 116) with true.
  cbv iota.
  change (97 =? 105) with false; change (97 =? 115) with false;
    change (97 =? 107) with false; change (116 =? 105) with false;
    change (116 =? 115) with false; change (116 =? 107) with false.
  change (97 - 32) with 65; change (116 - 32) with 84.
  rewrite !andb_false_l, !orb_false_r.
  intros H; apply orb_true_iff in H.
  destruct H as [H|H]; apply N.eqb_eq in H; subst; reflexivity.
Qed.

Lemma patterns_apart (line g : str) :
  Re.pattern_match FileParser.ARTIST_PATTERN line = Some g ->
  Re.pattern_match FileParser.TITLE_PATTERN line = None.
Proof.
  unfold Re.pattern_match; simpl Re.literal.
  destruct line as [|c line]; [discriminate|].
  change (py "Artist: ") with (65 :: py "rtist: ").
  change (py "Title: ") with (84 :: py "itle: ").
  cbn [Re.match_literal].
  destruct (Re.ignorecase_match 65 c) eqn:E; [|discriminate].
  rewrite (initials_apart c E); reflexivity.
Qed.

(** The group of a match on a trimmed line stays non-empty when trimmed. *)
Lemma group_of_trimmed_line (label raw g : str) :
  Re.pattern_match (Re.compile (label ++ py ": ")) (strip raw) = Some g ->
  strip g <> [] /\ strip (strip g) <> [].
Proof.
  intros H; apply pattern_match_spec in H.
  destruct H as [L [tail [Hl [_ [Hg [_ Ht]]]]]].
  destruct (nonempty_snoc g Hg) as [r [c ->]].
  assert (Hc : isspace c = false).
  { destruct Ht as [->| ->].
    - rewrite app_nil_r in Hl.
      replace (L ++ py ": " ++ r ++ [c]) with ((L ++ py ": " ++ r) ++ [c]) in Hl
        by (rewrite <- !app_assoc; reflexivity).
      exact (strip_last _ _ _ Hl).
    - exfalso.
      replace (L ++ py ": " ++ (r ++ [c]) ++ [0x0A])
        with ((L ++ py ": " ++ r ++ [c]) ++ [0x0A]) in Hl
        by (rewrite <- !app_assoc; reflexivity).
      apply strip_last in Hl; discriminate. }
  destruct (strip_snoc r c Hc) as [r' Hr'].
  rewrite Hr'; split; [apply snoc_not_nil|].
  destruct (strip_snoc r' c Hc) as [r'' ->]; apply snoc_not_nil.
Qed.

End Patterns.

(** ** The extraction loop *)

Section Extraction.

Import FileParser.

Lemma artist_step (line g : str) (rest : list str) (a t : option str) :
  Re.pattern_match ARTIST_PATTERN (strip line) = Some g ->
  extract_loop (line :: rest) a t = extract_loop rest (Some (strip g)) t.
Proof.
  intros H; cbn [extract_loop].
  destruct (strip line) as [|c s] eqn:E; [discriminate H|].
  cbn [is_empty]; rewrite H; reflexivity.
Qed.

Lemma title_step (line g : str) (rest : list str) (a t : option str) :
  Re.pattern_match TITLE_PATTERN (strip line) = Some g ->
  extract_loop (line :: rest) a t = extract_loop rest a (Some (strip g)).
Proof.
  intros H; cbn [extract_loop].
  destruct (strip line) as [|c s] eqn:E; [discriminate H|].
  cbn [is_empty].
  destruct (Re.pattern_match ARTIST_PATTERN (c :: s)) as [g'|] eqn:EA.
  - apply patterns_apart in EA; congruence.
  - rewrite H; reflexivity.
Qed.

Lemma ignored_step (line : str) (rest : list str) (a t : option str) :
  no_match ARTIST_PATTERN line -> no_match TITLE_PATTERN line ->
  extract_loop (line :: rest) a t = extract_loop rest a t.
Proof.
  unfold no_match; intros HA HT; cbn [extract_loop].
  rewrite HA, HT; destruct (is_empty (strip line)); reflexivity.
Qed.

Lemma extract_loop_app (l1 l2 : list str) (a t : option str) :
  extract_loop (l1 ++ l2) a t =
  extract_loop l2 (fst (extract_loop l1 a t)) (snd (extract_loop l1 a t)).
Proof.
  revert a t; induction l1 as [|line l1 IH]; intros a t; [reflexivity|].
  cbn [app extract_loop].
  destruct (is_empty (strip line)); [apply IH|].
  destruct (Re.pattern_match ARTIST_PATTERN (strip line)); [apply IH|].
  destruct (Re.pattern_match TITLE_PATTERN (strip line)); apply IH.
Qed.

Lemma no_artist_keeps (lines : list str) (a t : option str) :
  Forall (no_match ARTIST_PATTERN) lines ->
  fst (extract_loop lines a t) = a.
Proof.
  intros H; revert a t; induction H as [|line lines Hl _ IH]; intros a t;
    [reflexivity|].
  cbn [extract_loop]; red in Hl; rewrite Hl.
  destruct (is_empty (strip line)); [apply IH|].
  destruct (Re.pattern_match TITLE_PATTERN (strip line)); apply IH.
Qed.

Lemma no_title_keeps (lines : list str) (a t : option str) :
  Forall (no_match TITLE_PATTERN) lines ->
  snd (extract_loop lines a t) = t.
Proof.
  intros H; revert a t; induction H as [|line lines Hl _ IH]; intros a t;
    [reflexivity|].
  cbn [extract_loop]; red in Hl; rewrite Hl.
  destruct (is_empty (strip line)); [apply IH|].
  destruct (Re.pattern_match ARTIST_PATTERN (strip line)); apply IH.
Qed.

Lemma last_artist_wins (lines : list str) (g : str) (a t : option str) :
  last_match ARTIST_PATTERN lines g ->
  fst (extract_loop lines a t) = Some (strip g).
Proof.
  intros [before [line [after [-> [Hm Hafter]]]]].
  rewrite extract_loop_app, (artist_step _ _ _ _ _ Hm).
  apply no_artist_keeps; exact Hafter.
Qed.

Lemma last_title_wins (lines : list str) (g : str) (a t : option str) :
  last_match TITLE_PATTERN lines g ->
  snd (extract_loop lines a t) = Some (strip g).
Proof.
  intros [before [line [after [-> [Hm Hafter]]]]].
  rewrite extract_loop_app, (title_step _ _ _ _ _ Hm).
  apply no_title_keeps; exact Hafter.
Qed.

(** Either no line matches, or there is a last one that does. *)
Lemma none_or_last (p : Re.Pattern) (lines : list str) :
  Forall (no_match p) lines \/ exists g, last_match p lines g.
Proof.
  induction lines as [|line lines [IH|[g IH]]].
  - left; constructor.
  - destruct (Re.pattern_match p (strip line)) as [g|] eqn:E.
    + right; exists g, [], line, lines; auto.
    + left; constructor; assumption.
  - right; exists g.
    destruct IH as [before [l [after [-> H]]]].
    exists (line :: before), l, after; auto.
Qed.

Lemma some_match_has_last (p : Re.Pattern) (lines : list str) :
  Exists (matches p) lines -> exists g, last_match p lines g.
Proof.
  intros H; destruct (none_or_last p lines) as [Hn|Hl]; [|exact Hl].
  exfalso; apply Exists_exists in H; destruct H as [l [Hin [g Hg]]].
  rewrite Forall_forall in Hn; specialize (Hn l Hin); red in Hn; congruence.
Qed.

(** The loop never stores a blank value. *)
Lemma extract_loop_solid (lines : list str) (a t : option str) :
  solid a -> solid t ->
  solid (fst (extract_loop lines a t)) /\ solid (snd (extract_loop lines a t)).
Proof.
  revert a t; induction lines as [|line lines IH]; intros a t Ha Ht;
    [split; assumption|].
  cbn [extract_loop].
  destruct (is_empty (strip line)); [apply IH; assumption|].
  destruct (Re.pattern_match ARTIST_PATTERN (strip line)) as [g|] eqn:EA.
  - apply IH; [|assumption].
    exact (group_of_trimmed_line (py "Artist") line g EA).
  - destruct (Re.pattern_match TITLE_PATTERN (strip line)) as [g|] eqn:ET.
    + apply IH; [assumption|].
      exact (group_of_trimmed_line (py "Title") line g ET).
    + apply IH; assumption.
Qed.

Lemma extract_metadata_solid (content a t : str) :
  _extract_metadata content = (Some a, Some t) ->
  truthy a && truthy t = true /\ strip a <> [] /\ strip t <> [].
Proof.
  intros H.
  destruct (extract_loop_solid (splitlines content) None None I I) as [Ha Ht].
  unfold _extract_metadata in H; rewrite H in Ha, Ht; simpl in Ha, Ht.
  destruct Ha as [Ha Ha'], Ht as [Ht Ht'].
  destruct a; [congruence|]; destruct t; [congruence|]; auto.
Qed.

End Extraction.

(** ** Trimming the whole text first changes nothing *)

Section Trimming.

Import FileParser.

Lemma linebreak_is_space (c : char) : is_linebreak c = true -> isspace c = true.
Proof.
  unfold is_linebreak, isspace; intros H.
  repeat (apply orb_true_iff in H; destruct H as [H|H]);
    repeat (apply andb_true_iff in H; destruct H as [H ?]);
    repeat match goal with
           | E : (_ <=? _) = true |- _ => apply N.leb_le in E
           | E : (_ =? _) = true |- _ => apply N.eqb_eq in E
           end;
    repeat rewrite orb_true_iff; repeat rewrite andb_true_iff;
    repeat rewrite N.leb_le; repeat rewrite N.eqb_eq; lia.
Qed.

Lemma lstrip_all_space (ws : str) : all_space ws -> lstrip ws = [].
Proof.
  induction 1 as [|c ws Hc _ IH]; simpl; [reflexivity|].
  rewrite Hc; exact IH.
Qed.

Lemma lstrip_app_space (ws x : str) : all_space ws -> lstrip (ws ++ x) = lstrip x.
Proof.
  induction 1 as [|c ws Hc _ IH]; simpl; [reflexivity|].
  rewrite Hc; exact IH.
Qed.

Lemma lstrip_decomp (s : str) : exists ws, all_space ws /\ s = ws ++ lstrip s.
Proof.
  induction s as [|c s [ws [Hws IH]]]; [exists []; split; [constructor|reflexivity]|].
  simpl; destruct (isspace c) eqn:E.
  - exists (c :: ws); split; [constructor; assumption|].
    simpl; rewrite <- IH; reflexivity.
  - exists []; split; [constructor | reflexivity].
Qed.

Lemma all_space_rev (ws : str) : all_space ws -> all_space (rev ws).
Proof. apply Forall_rev. Qed.

Lemma rstrip_decomp (s : str) : exists ws, all_space ws /\ s = rstrip s ++ ws.
Proof.
  destruct (lstrip_decomp (rev s)) as [ws [Hws E]].
  exists (rev ws); split; [apply all_space_rev; exact Hws|].
  unfold rstrip; rewrite <- rev_app_distr, <- E, rev_involutive; reflexivity.
Qed.

Lemma rstrip_app_space (x ws : str) : all_space ws -> rstrip (x ++ ws) = rstrip x.
Proof.
  intros H; unfold rstrip.
  rewrite rev_app_distr, lstrip_app_space by (apply all_space_rev; exact H).
  reflexivity.
Qed.

Lemma lstrip_app_tail (x ws : str) :
  all_space ws -> exists ws', all_space ws' /\ lstrip (x ++ ws) = lstrip x ++ ws'.
Proof.
  intros H; induction x as [|c x IH]; simpl.
  - exists []; split; [constructor | apply lstrip_all_space; exact H].
  - destruct (isspace c); [exact IH|].
    exists ws; split; [exact H | reflexivity].
Qed.

Lemma strip_app_space_l (ws x : str) : all_space ws -> strip (ws ++ x) = strip x.
Proof. intros H; unfold strip; rewrite lstrip_app_space by exact H; reflexivity. Qed.

Lemma strip_app_space_r (x ws : str) : all_space ws -> strip (x ++ ws) = strip x.
Proof.
  intros H; unfold strip.
  destruct (lstrip_app_tail x ws H) as [ws' [Hws' ->]].
  apply rstrip_app_space; exact Hws'.
Qed.

Lemma strip_all_space (ws : str) : all_space ws -> strip ws = [].
Proof. intros H; unfold strip; rewrite lstrip_all_space by exact H; reflexivity. Qed.

(** The loop sees a line through its trimmed form only. *)
Lemma extract_loop_cons (l : str) (rest : list str) (a t : option str) :
  extract_loop (l :: rest) a t =
  extract_loop rest (fst (extract_loop [l] a t)) (snd (extract_loop [l] a t)).
Proof. exact (extract_loop_app [l] rest a t). Qed.

Lemma extract_loop_same_trim (l l' : str) (rest : list str) (a t : option str) :
  strip l = strip l' ->
  extract_loop (l :: rest) a t = extract_loop (l' :: rest) a t.
Proof. intros H; cbn [extract_loop]; rewrite H; reflexivity. Qed.

Lemma extract_loop_blank (l : str) (rest : list str) (a t : option str) :
  strip l = [] -> extract_loop (l :: rest) a t = extract_loop rest a t.
Proof. intros H; cbn [extract_loop]; rewrite H; reflexivity. Qed.

(** White space at the start of the line being read does not count. *)
Lemma splitlines_from_pad (s : str) (f : bool) (acc cur : str) :
  acc <> [] ->
  exists first rest,
    splitlines_from f acc s = first :: rest
    /\ splitlines_from f (acc ++ cur) s = (rev cur ++ first) :: rest.
Proof.
  revert f acc; induction s as [|c s IH]; intros f acc Hacc.
  - cbn [splitlines_from].
    destruct acc as [|x acc]; [congruence|]; cbn [app is_empty].
    exists (rev (x :: acc)), []; split; [reflexivity|].
    change (x :: acc ++ cur) with ((x :: acc) ++ cur).
    rewrite rev_app_distr; reflexivity.
  - cbn [splitlines_from].
    destruct (f && (c =? 10)); [apply IH; exact Hacc|].
    destruct (is_linebreak c).
    + exists (rev acc), (splitlines_from (c =? 13) [] s); split; [reflexivity|].
      rewrite rev_app_distr; reflexivity.
    + change (c :: acc ++ cur) with ((c :: acc) ++ cur).
      apply IH; discriminate.
Qed.

Lemma extract_loop_leading (s : str) (f : bool) (cur : str) (a t : option str) :
  all_space cur ->
  extract_loop (splitlines_from f cur s) a t
  = extract_loop (splitlines (lstrip s)) a t.
Proof.
  revert f cur; induction s as [|c s IH]; intros f cur Hcur.
  - cbn [splitlines_from lstrip splitlines].
    destruct (is_empty cur); [reflexivity|].
    apply extract_loop_blank, strip_all_space, all_space_rev; exact Hcur.
  - cbn [splitlines_from lstrip].
    destruct (f && (c =? 10)) eqn:Ef.
    + apply andb_true_iff in Ef; destruct Ef as [_ Ec]; apply N.eqb_eq in Ec.
      subst c; change (isspace 10) with true; cbn iota.
      apply IH; exact Hcur.
    + destruct (is_linebreak c) eqn:El.
      * rewrite (linebreak_is_space c El).
        rewrite extract_loop_blank
          by (apply strip_all_space, all_space_rev; exact Hcur).
        apply IH; constructor.
      * destruct (isspace c) eqn:Es.
        -- apply IH; constructor; assumption.
        -- unfold splitlines; cbn [splitlines_from andb]; rewrite El.
           destruct (splitlines_from_pad s false [c] cur) as [first [rest [E1 E2]]];
             [discriminate|].
           change (c :: cur) with ([c] ++ cur); rewrite E1, E2.
           apply extract_loop_same_trim, strip_app_space_l, all_space_rev.
           exact Hcur.
Qed.

Lemma extract_loop_only_space (ws : str) (f : bool) (cur : str)
      (a t : option str) :
  all_space ws ->
  extract_loop (splitlines_from f cur ws) a t = extract_loop [rev cur] a t.
Proof.
  intros H; revert f cur a t; induction H as [|c ws Hc _ IH]; intros f cur a t.
  - cbn [splitlines_from].
    destruct cur as [|x cur]; [reflexivity | reflexivity].
  - cbn [splitlines_from].
    destruct (f && (c =? 10)); [apply IH|].
    destruct (is_linebreak c).
    + rewrite extract_loop_cons, IH.
      rewrite (extract_loop_blank (rev []) [] _ _ eq_refl).
      cbn [extract_loop]; symmetry; apply surjective_pairing.
    + rewrite IH; apply extract_loop_same_trim.
      cbn [rev]; apply strip_app_space_r; repeat constructor; exact Hc.
Qed.

Lemma extract_loop_trailing (x ws : str) (f : bool) (cur : str)
      (a t : option str) :
  all_space ws ->
  extract_loop (splitlines_from f cur (x ++ ws)) a t
  = extract_loop (splitlines_from f cur x) a t.
Proof.
  intros H; revert f cur a t; induction x as [|c x IH]; intros f cur a t.
  - cbn [app splitlines_from]; rewrite (extract_loop_only_space ws f cur a t H).
    destruct cur; reflexivity.
  - cbn [app splitlines_from].
    destruct (f && (c =? 10)); [apply IH|].
    destruct (is_linebreak c); [|apply IH].
    rewrite extract_loop_cons, IH, <- extract_loop_cons; reflexivity.
Qed.

(** [parse_file] trims the text before it splits it; the result is that of
    the untrimmed text. *)
Lemma extract_metadata_strip (raw : str) :
  _extract_metadata (strip raw) = _extract_metadata raw.
Proof.
  unfold _extract_metadata, strip.
  destruct (rstrip_decomp (lstrip raw)) as [ws [Hws E]].
  transitivity (extract_loop (splitlines (lstrip raw)) None None).
  - rewrite E at 2; unfold splitlines.
    symmetry; apply extract_loop_trailing; exact Hws.
  - symmetry; apply (extract_loop_leading raw false []); constructor.
Qed.

End Trimming.

(** ** Computations *)

Section Computations.

Lemma outcome_bind {A B} (m : M A) (f : A -> M B) :
  outcome (bind m f) =
  match outcome m with
  | Ok a => outcome (f a)
  | Raise e => Raise e
  end.
Proof.
  destruct m as [t [a|e]]; simpl; [|reflexivity].
  destruct (f a); reflexivity.
Qed.

Lemma trace_bind {A B} (m : M A) (f : A -> M B) :
  trace (bind m f) =
  trace m ++ match outcome m with
             | Ok a => trace (f a)
             | Raise _ => []
             end.
Proof.
  destruct m as [t [a|e]]; simpl; [|rewrite app_nil_r; reflexivity].
  destruct (f a); reflexivity.
Qed.

Lemma outcome_try_except {A} (body : M A) (classes : exn -> bool)
      (handler : exn -> M A) :
  outcome (try_except body classes handler) =
  match outcome body with
  | Ok a => Ok a
  | Raise e => if classes e then outcome (handler e) else Raise e
  end.
Proof.
  destruct body as [t [a|e]]; simpl; [reflexivity|].
  destruct (classes e); [|reflexivity].
  destruct (handler e); reflexivity.
Qed.

Lemma trace_try_except {A} (body : M A) (classes : exn -> bool)
      (handler : exn -> M A) :
  trace (try_except body classes handler) =
  trace body ++ match outcome body with
                | Ok _ => []
                | Raise e => if classes e then trace (handler e) else []
                end.
Proof.
  destruct body as [t [a|e]]; simpl; [rewrite app_nil_r; reflexivity|].
  destruct (classes e); [|simpl; rewrite app_nil_r; reflexivity].
  destruct (handler e); reflexivity.
Qed.

Lemma M_eta {A} (m : M A) : m = (trace m, outcome m).
Proof. destruct m; reflexivity. Qed.

Lemma http_posts_app (t1 t2 : list effect) :
  http_posts (t1 ++ t2) = http_posts t1 ++ http_posts t2.
Proof.
  induction t1 as [|e t1 IH]; [reflexivity|].
  destruct e; simpl; rewrite IH; reflexivity.
Qed.

(** A handler for every exception that only logs ends the computation
    normally. *)
Lemma guarded_never_raises (body : M unit) (report : exn -> str) :
  outcome (try_except body is_Exception
             (fun e => logging ERROR (report e))) = Ok tt.
Proof.
  rewrite outcome_try_except; destruct (outcome body) as [[]|e]; reflexivity.
Qed.

End Computations.

(** ** Reading the file *)

Section Reading.

Import FileParser.

Lemma parse_file_readable (w : world) (p : Path) (raw : str) :
  path_exists w p = true -> read_text w p = Ok raw ->
  parse_file w p =
  ((if is_empty (strip raw) then [Log WARNING (py "File is empty")] else []),
   Ok (_extract_metadata raw)).
Proof.
  intros He Hr; unfold parse_file, open_read; rewrite He, Hr; simpl.
  rewrite <- (extract_metadata_strip raw).
  destruct (strip raw) eqn:E; reflexivity.
Qed.

Lemma blank_text_extracts_nothing (raw : str) :
  strip raw = [] -> _extract_metadata raw = (None, None).
Proof. intros E; rewrite <- extract_metadata_strip, E; reflexivity. Qed.

Lemma parse_file_missing (w : world) (p : Path) :
  path_exists w p = false ->
  parse_file w p =
  ([], Raise (mk_exn FileNotFoundError (py "File not found: " ++ p))).
Proof. intros He; unfold parse_file; rewrite He; reflexivity. Qed.

Lemma parse_file_unreadable (w : world) (p : Path) (e : exn) :
  path_exists w p = true -> read_text w p = Raise e ->
  parse_file w p =
  ([], Raise (if is_IOError e
              then mk_exn OSError
                     (py "Error reading file " ++ p ++ py ": " ++ message e)
              else e)).
Proof.
  intros He Hr; unfold parse_file, open_read; rewrite He, Hr; simpl.
  destruct (is_IOError e); reflexivity.
Qed.

(** Reading and parsing never sends a request. *)
Lemma parse_file_quiet (w : world) (p : Path) :
  http_posts (trace (parse_file w p)) = [].
Proof.
  destruct (path_exists w p) eqn:He.
  - destruct (read_text w p) as [raw|e] eqn:Hr.
    + rewrite (parse_file_readable w p raw He Hr).
      destruct (is_empty (strip raw)); reflexivity.
    + rewrite (parse_file_unreadable w p e He Hr); reflexivity.
  - rewrite (parse_file_missing w p He); reflexivity.
Qed.

End Reading.

(** ** The reporter *)

Section Reporter.

Import RadioPlayerAPI.

Lemma length_zero_is_empty (s : str) :
  (N.of_nat (List.length s) =? 0) = is_empty s.
Proof. destruct s; reflexivity. Qed.

Lemma validate_blank (artist title : str) :
  blank artist || blank title = true ->
  exists msg, _validate_metadata artist title = ([Log WARNING msg], Ok false).
Proof.
  intros H; unfold _validate_metadata.
  destruct (negb (truthy artist) || negb (truthy title)); [eexists; reflexivity|].
  rewrite !length_zero_is_empty; fold (blank artist) (blank title).
  rewrite H; eexists; reflexivity.
Qed.

Lemma validate_solid (artist title : str) :
  blank artist = false -> blank title = false ->
  _validate_metadata artist title = ([], Ok true).
Proof.
  intros Ha Ht; unfold _validate_metadata.
  destruct artist as [|a artist]; [discriminate Ha|].
  destruct title as [|t title]; [discriminate Ht|].
  cbn [truthy is_empty negb orb].
  rewrite !length_zero_is_empty; fold (blank (a :: artist)) (blank (t :: title)).
  rewrite Ha, Ht; reflexivity.
Qed.

Lemma timestamp_spec (config : Config.t) (w : world) :
  _get_current_timestamp config w =
  (zone_warning config w, Ok (strftime (datetime_now w (resolved_zone config w)))).
Proof.
  unfold _get_current_timestamp, pytz_timezone, zone_warning, resolved_zone.
  destruct (timezone_db w (Config.timezone config)); reflexivity.
Qed.

Lemma build_url_quiet (config : Config.t) (artist title ts : str) :
  trace (_build_url config artist title ts) = [].
Proof.
  unfold _build_url, Urllib.quote_plus.
  destruct (Urllib.utf8_encode artist), (Urllib.utf8_encode title); reflexivity.
Qed.

Lemma raise_for_status_spec (status : N) :
  raise_for_status status =
  if (400 <=? status) && (status <? 600)
  then ([], Raise (mk_exn HTTPError
                     (str_of_N status ++
                      (if status <? 500 then py " Client Error"
                       else py " Server Error"))))
  else ([], Ok tt).
Proof.
  unfold raise_for_status.
  destruct (N.leb_spec 400 status), (N.ltb_spec status 500),
    (N.leb_spec 500 status), (N.ltb_spec status 600);
    simpl; try reflexivity; lia.
Qed.

Lemma request_posts_once (config : Config.t) (w : world)
      (artist title url : str) :
  http_posts (trace (request config w artist title url)) = [url].
Proof.
  unfold request, session_post.
  fold (auth config).
  destruct (http_post w url (auth config) 30) as [status|e] eqn:E.
  - cbn [bind logging emit ret app].
    rewrite raise_for_status_spec.
    destruct ((400 <=? status) && (status <? 600)); reflexivity.
  - simpl; destruct (is_RequestException e); reflexivity.
Qed.

Lemma request_outcome (config : Config.t) (w : world)
      (artist title url : str) :
  outcome (request config w artist title url) =
  classify (http_post w url (auth config) 30).
Proof.
  unfold request, session_post, classify.
  fold (auth config).
  destruct (http_post w url (auth config) 30) as [status|e] eqn:E.
  - cbn [bind logging emit ret app].
    rewrite raise_for_status_spec.
    destruct ((400 <=? status) && (status <? 600)); reflexivity.
  - simpl; destruct (is_RequestException e); reflexivity.
Qed.

Lemma post_now_playing_solid (config : Config.t) (w : world)
      (artist title : str) :
  blank artist = false -> blank title = false ->
  post_now_playing config w artist title =
  (ts <- _get_current_timestamp config w ;;
   url <- _build_url config artist title ts ;;
   request config w artist title url).
Proof.
  intros Ha Ht; unfold post_now_playing.
  rewrite (validate_solid _ _ Ha Ht); simpl.
  destruct (_ <- _get_current_timestamp config w ;; _); reflexivity.
Qed.

End Reporter.

(** ** The extractor: which lines count, and which one wins *)

Section ExtractorClaims.

Import FileParser.

(** C10, as the code has it.  For every line, either pattern matches
    exactly when the line is the label in any letter case, a colon, one
    space character and at least one more character (a line feed may end
    it); the group is all that follows that first space, so further spaces
    belong to the group and are trimmed off afterwards.  A line that matches
    neither pattern leaves both candidates as they were.  Any mix of upper
    and lower case ASCII letters spells the label.  In particular
    [Artist:Queen] and [Artist : Queen] match nothing, while
    [Artist:  Queen], with two spaces, does match. *)
Theorem C10_label_colon_space_value (line : str) :
  (forall g, Re.pattern_match ARTIST_PATTERN line = Some g
             <-> label_line (py "Artist") line g)
  /\ (forall g, Re.pattern_match TITLE_PATTERN line = Some g
                <-> label_line (py "Title") line g)
  /\ (forall rest a t,
         no_match ARTIST_PATTERN line -> no_match TITLE_PATTERN line ->
         extract_loop (line :: rest) a t = extract_loop rest a t)
  /\ (forall L,
         map Re.ascii_lower L = py "artist" -> spells (py "Artist") L)
  /\ (forall L,
         map Re.ascii_lower L = py "title" -> spells (py "Title") L)
  /\ _extract_metadata (py "Artist:Queen") = (None, None)
  /\ _extract_metadata (py "Artist : Queen") = (None, None)
  /\ _extract_metadata (py "Title:Bohemian Rhapsody") = (None, None)
  /\ _extract_metadata (py "Artist:  Queen") = (Some (py "Queen"), None).
Proof.
  split; [intros g; apply ARTIST_PATTERN_spec|].
  split; [intros g; apply TITLE_PATTERN_spec|].
  split; [intros rest a t; apply ignored_step|].
  split; [intros L HL; apply ascii_case_spells;
          [repeat constructor | exact HL]|].
  split; [intros L HL; apply ascii_case_spells;
          [repeat constructor | exact HL]|].
  repeat split; vm_compute; reflexivity.
Qed.

Lemma C10_witness :
  Re.pattern_match ARTIST_PATTERN (py "aRTIST: Queen ") = Some (py "Queen ")
  /\ label_line (py "Artist") (py "aRTIST: Queen ") (py "Queen ").
Proof.
  assert (H : Re.pattern_match ARTIST_PATTERN (py "aRTIST: Queen ")
              = Some (py "Queen ")) by (vm_compute; reflexivity).
  split; [exact H|].
  exact (proj1 (proj1 (C10_label_colon_space_value (py "aRTIST: Queen "))
                  (py "Queen ")) H).
Defined.

(** C10, as it is worded, fails: in [Artist:  Queen] two spaces stand
    between the colon and the value, yet the line matches the artist
    pattern and sets the candidate to [Queen]. *)
Lemma C10_counterexample :
  ~ one_space_line (py "Artist") (py "Artist:  Queen")
  /\ Re.pattern_match ARTIST_PATTERN (py "Artist:  Queen") = Some (py " Queen")
  /\ _extract_metadata (py "Artist:  Queen") = (Some (py "Queen"), None).
Proof.
  split; [|split; vm_compute; reflexivity].
  intros [L [v [c [Hl [HL Hc]]]]].
  assert (Hlen : List.length L = 6%nat).
  { unfold spells in HL; apply Forall2_length in HL.
    rewrite <- HL; reflexivity. }
  destruct L as [|c1 [|c2 [|c3 [|c4 [|c5 [|c6 [|c7 L]]]]]]]; try discriminate Hlen.
  vm_compute in Hl; inversion Hl; subst; apply Hc; reflexivity.
Qed.

(** C3.  When some line of the text matches the artist pattern and some
    line matches the title pattern (the patterns take the label in any
    letter case), each has a last matching line, and the extractor returns
    the trimmed groups of those two lines: a later matching line replaces
    an earlier one.  So does [parse_file] for a readable file with that
    text. *)
Theorem C3_last_matching_line_wins (content : str) :
  Exists (matches ARTIST_PATTERN) (splitlines content) ->
  Exists (matches TITLE_PATTERN) (splitlines content) ->
  (exists gA gT,
      last_match ARTIST_PATTERN (splitlines content) gA
      /\ last_match TITLE_PATTERN (splitlines content) gT)
  /\ (forall gA gT,
         last_match ARTIST_PATTERN (splitlines content) gA ->
         last_match TITLE_PATTERN (splitlines content) gT ->
         _extract_metadata content = (Some (strip gA), Some (strip gT))
         /\ forall w p,
             path_exists w p = true -> read_text w p = Ok content ->
             parse_file w p = ([], Ok (Some (strip gA), Some (strip gT)))).
Proof.
  intros HA HT; split.
  - destruct (some_match_has_last _ _ HA) as [gA HgA].
    destruct (some_match_has_last _ _ HT) as [gT HgT].
    exists gA, gT; split; assumption.
  - intros gA gT HgA HgT.
    assert (E : _extract_metadata content = (Some (strip gA), Some (strip gT))).
    { unfold _extract_metadata.
      rewrite (surjective_pairing (extract_loop _ _ _)).
      rewrite (last_artist_wins _ _ _ _ HgA), (last_title_wins _ _ _ _ HgT).
      reflexivity. }
    split; [exact E|].
    intros w p He Hr.
    rewrite (parse_file_readable w p content He Hr), E.
    destruct (strip content) eqn:Es; [|reflexivity].
    rewrite (blank_text_extracts_nothing content Es) in E; discriminate E.
Qed.

Lemma C3_witness :
  let content :=
    py "artist: Abba" ++ [0x0A] ++ py "Title: Waterloo" ++ [0x0D; 0x0A]
       ++ py "  ARTIST:   Queen " ++ [0x0A] ++ py "title: Bohemian Rhapsody" in
  _extract_metadata content = (Some (py "Queen"), Some (py "Bohemian Rhapsody")).
Proof.
  intros content.
  assert (HA : Exists (matches ARTIST_PATTERN) (splitlines content)).
  { apply Exists_cons_hd; exists (py "Abba"); vm_compute; reflexivity. }
  assert (HT : Exists (matches TITLE_PATTERN) (splitlines content)).
  { apply Exists_cons_tl, Exists_cons_hd; exists (py "Waterloo");
      vm_compute; reflexivity. }
  assert (LA : last_match ARTIST_PATTERN (splitlines content) (py "  Queen")).
  { exists [py "artist: Abba"; py "Title: Waterloo"], (py "  ARTIST:   Queen "),
      [py "title: Bohemian Rhapsody"].
    split; [vm_compute; reflexivity|].
    split; [vm_compute; reflexivity|].
    repeat constructor. }
  assert (LT : last_match TITLE_PATTERN (splitlines content)
                 (py "Bohemian Rhapsody")).
  { exists [py "artist: Abba"; py "Title: Waterloo"; py "  ARTIST:   Queen "],
      (py "title: Bohemian Rhapsody"), [].
    split; [vm_compute; reflexivity|].
    split; [vm_compute; reflexivity|constructor]. }
  exact (proj1 (proj2 (C3_last_matching_line_wins content HA HT) _ _ LA LT)).
Defined.

(** C1, as it is worded, fails: a text with an artist line and no title
    line gives a pair in which the artist alone is present, from
    [_extract_metadata] and from [parse_file]. *)
Lemma C1_counterexample :
  let w := Examples.world_with (py "Artist: Queen") (Response 200)
             Examples.london 0%Q in
  Forall (no_match TITLE_PATTERN) (splitlines (py "Artist: Queen"))
  /\ _extract_metadata (py "Artist: Queen") = (Some (py "Queen"), None)
  /\ parse_file w Examples.watched = ([], Ok (Some (py "Queen"), None)).
Proof.
  split; [repeat constructor|].
  split; vm_compute; reflexivity.
Qed.

(** C1, as the code has it.  For a readable file whose text lacks a
    matching line for one of the labels, [parse_file] returns the pair of
    [_extract_metadata], in which the component of each label without a
    matching line is absent; the change handler and the start-up pass then
    log a warning and send no request. *)
Theorem C1_missing_label_no_report (config : Config.t) (lm : Q) (w : world)
        (raw : str) :
  let self := FileChangeHandler.mk (Config.file_path config) config lm in
  let lines := splitlines raw in
  path_exists w (Config.file_path config) = true ->
  read_text w (Config.file_path config) = Ok raw ->
  Forall (no_match ARTIST_PATTERN) lines \/ Forall (no_match TITLE_PATTERN) lines ->
  outcome (parse_file w (Config.file_path config)) = Ok (_extract_metadata raw)
  /\ (Forall (no_match ARTIST_PATTERN) lines ->
      fst (_extract_metadata raw) = None)
  /\ (Forall (no_match TITLE_PATTERN) lines ->
      snd (_extract_metadata raw) = None)
  /\ trace (FileChangeHandler._process_file_change self w)
     = Log INFO (py "File changed: " ++ Config.file_path config)
         :: trace (parse_file w (Config.file_path config))
         ++ [Log WARNING
               (py "Could not extract valid artist and title from file")]
  /\ trace (RadioPlayerMonitor._process_initial_file config w)
     = trace (parse_file w (Config.file_path config))
         ++ [Log WARNING (py "No valid artist/title found in initial file")]
  /\ http_posts (trace (FileChangeHandler._process_file_change self w)) = []
  /\ http_posts (trace (RadioPlayerMonitor._process_initial_file config w)) = [].
Proof.
  intros self lines He Hr Hmiss.
  assert (HA : Forall (no_match ARTIST_PATTERN) lines ->
               fst (_extract_metadata raw) = None).
  { intros H; apply no_artist_keeps; exact H. }
  assert (HT : Forall (no_match TITLE_PATTERN) lines ->
               snd (_extract_metadata raw) = None).
  { intros H; apply no_title_keeps; exact H. }
  pose proof (parse_file_readable w _ raw He Hr) as Hp.
  assert (Hpair : exists a t, _extract_metadata raw = (a, t)
                              /\ (a = None \/ t = None)).
  { destruct (_extract_metadata raw) as [a t] eqn:E.
    exists a, t; split; [reflexivity|].
    destruct Hmiss as [H|H]; [left; exact (HA H) | right; exact (HT H)]. }
  destruct Hpair as [a [t [E Hnone]]].
  assert (T1 : trace (FileChangeHandler._process_file_change self w)
     = Log INFO (py "File changed: " ++ Config.file_path config)
         :: trace (parse_file w (Config.file_path config))
         ++ [Log WARNING
               (py "Could not extract valid artist and title from file")]).
  { unfold FileChangeHandler._process_file_change, self.
    cbn [FileChangeHandler.file_path].
    rewrite Hp, E.
    destruct Hnone as [-> | ->]; [|destruct a];
      destruct (is_empty (strip raw)); reflexivity. }
  assert (T2 : trace (RadioPlayerMonitor._process_initial_file config w)
     = trace (parse_file w (Config.file_path config))
         ++ [Log WARNING (py "No valid artist/title found in initial file")]).
  { unfold RadioPlayerMonitor._process_initial_file.
    rewrite Hp, E.
    destruct Hnone as [-> | ->]; [|destruct a];
      destruct (is_empty (strip raw)); reflexivity. }
  split; [rewrite Hp; reflexivity|].
  split; [exact HA|]. split; [exact HT|].
  split; [exact T1|]. split; [exact T2|].
  rewrite T1, T2; cbn [http_posts].
  rewrite !http_posts_app, parse_file_quiet; split; reflexivity.
Qed.

Lemma C1_witness :
  let w := Examples.world_with (py " Artist: Queen ") (Response 200)
             Examples.london 0%Q in
  outcome (parse_file w Examples.watched) = Ok (Some (py "Queen"), None)
  /\ http_posts (trace (FileChangeHandler._process_file_change
                          Examples.handler w)) = [].
Proof.
  intros w.
  assert (He : path_exists w (Config.file_path Examples.config) = true)
    by reflexivity.
  assert (Hr : read_text w (Config.file_path Examples.config)
               = Ok (py " Artist: Queen ")) by reflexivity.
  assert (Hm : Forall (no_match ARTIST_PATTERN)
                 (splitlines (py " Artist: Queen "))
               \/ Forall (no_match TITLE_PATTERN)
                    (splitlines (py " Artist: Queen "))).
  { right; vm_compute; repeat constructor. }
  pose proof (C1_missing_label_no_report Examples.config 0%Q w
                (py " Artist: Queen ") He Hr Hm) as H.
  split; [vm_compute; reflexivity|].
  exact (proj1 (proj2 (proj2 (proj2 (proj2 (proj2 H)))))).
Defined.

End ExtractorClaims.

(** ** The shape of a timestamp *)

Section Timestamp.

Lemma all_below_spec (k : nat) (P : N -> bool) :
  all_below k P = true -> forall n, n < N.of_nat k -> P n = true.
Proof.
  induction k as [|k IH]; simpl; intros H n Hn; [lia|].
  apply andb_true_iff in H; destruct H as [H1 H2].
  destruct (N.eq_dec n (N.of_nat k)) as [->|Hne]; [exact H1|].
  apply IH; [exact H2 | lia].
Qed.

Lemma fullmatch_app (s1 s2 : list item) (a b : str) :
  fullmatch s1 a = true -> fullmatch s2 b = true ->
  fullmatch (s1 ++ s2) (a ++ b) = true.
Proof.
  revert a; induction s1 as [|i s1 IH]; intros a H1 H2.
  - destruct a; [exact H2 | discriminate H1].
  - destruct a as [|c a]; [destruct i; discriminate H1|].
    destruct i; simpl in *; apply andb_true_iff in H1; destruct H1 as [H H1];
      rewrite H; simpl; apply IH; assumption.
Qed.

Lemma year_text (n : N) :
  1000 <= n <= 9999 ->
  fullmatch [Digit; Digit; Digit; Digit] (str_of_N n) = true.
Proof.
  intros [Hlo Hhi].
  assert (H : all_below (N.to_nat 10000)
                (fun n => (n <? 1000)
                          || fullmatch [Digit; Digit; Digit; Digit] (str_of_N n))
              = true) by (vm_compute; reflexivity).
  pose proof (all_below_spec _ _ H n) as Hn; cbv beta in Hn.
  apply orb_true_iff in Hn; [|rewrite N2Nat.id; lia].
  destruct Hn as [Hn|Hn]; [apply N.ltb_lt in Hn; lia | exact Hn].
Qed.

Lemma field_text (n : N) :
  n <= 99 -> fullmatch [Digit; Digit] (zfill 2 (str_of_N n)) = true.
Proof.
  intros Hhi.
  assert (H : all_below (N.to_nat 100)
                (fun n => fullmatch [Digit; Digit] (zfill 2 (str_of_N n)))
              = true) by (vm_compute; reflexivity).
  apply (all_below_spec _ _ H n); rewrite N2Nat.id; lia.
Qed.

Lemma strftime_shape (d : datetime) :
  valid_datetime d = true -> 1000 <= year d ->
  fullmatch TIMESTAMP_SHAPE (strftime d) = true.
Proof.
  unfold valid_datetime; intros H Hy.
  repeat (apply andb_true_iff in H; destruct H as [H ?]).
  repeat match goal with
         | E : (_ <=? _) = true |- _ => apply N.leb_le in E
         end.
  unfold strftime.
  change TIMESTAMP_SHAPE with
    ([Digit; Digit; Digit; Digit] ++ [Lit 45] ++ [Digit; Digit] ++ [Lit 45]
       ++ [Digit; Digit] ++ [Lit 84] ++ [Digit; Digit] ++ [Lit 58]
       ++ [Digit; Digit] ++ [Lit 58] ++ [Digit; Digit]).
  repeat (apply fullmatch_app;
          [first [ apply year_text; lia | apply field_text; lia | reflexivity ]|]).
  apply field_text; lia.
Qed.

End Timestamp.

(** ** The reporter: rejection, delivery, the request and its timestamp *)

Section ReporterClaims.

Import RadioPlayerAPI.

Lemma post_now_playing_blank (config : Config.t) (w : world)
      (artist title : str) :
  blank artist || blank title = true ->
  exists msg,
    post_now_playing config w artist title = ([Log WARNING msg], Ok false).
Proof.
  intros H; destruct (validate_blank artist title H) as [msg Hv].
  exists msg; unfold post_now_playing; rewrite Hv; reflexivity.
Qed.

Lemma post_now_playing_posts (config : Config.t) (w : world)
      (artist title url : str) :
  blank artist = false -> blank title = false ->
  outcome (_build_url config artist title
             (strftime (datetime_now w (resolved_zone config w)))) = Ok url ->
  http_posts (trace (post_now_playing config w artist title)) = [url]
  /\ outcome (post_now_playing config w artist title)
     = classify (http_post w url (auth config) 30).
Proof.
  intros Ha Ht Hu.
  rewrite (post_now_playing_solid config w artist title Ha Ht).
  rewrite timestamp_spec.
  rewrite trace_bind, outcome_bind; cbn [trace outcome fst snd].
  rewrite trace_bind, outcome_bind, Hu, build_url_quiet.
  rewrite !http_posts_app, request_posts_once, request_outcome.
  split; [|reflexivity].
  unfold zone_warning; destruct (timezone_db w (Config.timezone config));
    reflexivity.
Qed.

(** C4.  When the artist or the title is blank once trimmed,
    [post_now_playing] returns [False] after one warning and sends no
    request: nothing but that warning is in the trace. *)
Theorem C4_blank_field_rejected (config : Config.t) (w : world)
        (artist title : str) :
  strip artist = [] \/ strip title = [] ->
  (exists msg,
      post_now_playing config w artist title = ([Log WARNING msg], Ok false))
  /\ http_posts (trace (post_now_playing config w artist title)) = [].
Proof.
  intros H.
  assert (Hb : blank artist || blank title = true).
  { unfold blank; destruct H as [-> | ->]; simpl;
      [reflexivity | apply orb_true_r]. }
  destruct (post_now_playing_blank config w artist title Hb) as [msg Hm].
  split; [exists msg; exact Hm | rewrite Hm; reflexivity].
Qed.

Lemma C4_witness :
  let w := Examples.world_with Examples.queen (Response 200)
             Examples.london 0%Q in
  strip (py "Queen") = [] \/ strip [0x20; 0x09; 0xA0] = []
  /\ http_posts (trace (post_now_playing Examples.config w (py "Queen")
                          [0x20; 0x09; 0xA0])) = [].
Proof.
  intros w.
  assert (H : strip (py "Queen") = [] \/ strip [0x20; 0x09; 0xA0] = [])
    by (right; vm_compute; reflexivity).
  right; split; [vm_compute; reflexivity|].
  exact (proj2 (C4_blank_field_rejected Examples.config w (py "Queen")
                  [0x20; 0x09; 0xA0] H)).
Defined.

(** C5, as it is worded, fails: the answer 304 is not a 2xx status, yet
    [raise_for_status] lets it pass and [post_now_playing] returns [True]. *)
Lemma C5_counterexample :
  let w := Examples.world_with Examples.queen (Response 304)
             Examples.london 0%Q in
  ~ (200 <= 304 < 300)
  /\ (forall url, http_post w url (auth Examples.config) 30 = Response 304)
  /\ outcome (post_now_playing Examples.config w (py "Queen")
                (py "Bohemian Rhapsody")) = Ok true.
Proof.
  intros w; split; [lia|].
  split; [intros url; reflexivity | vm_compute; reflexivity].
Qed.

(** C5, as the code has it.  A report whose fields are not blank and whose
    URL can be built sends exactly one request.  When the request ends in
    an exception of [requests] (a connection error, a timeout) or in a
    status from 400 to 599, [post_now_playing] returns [False] and raises
    nothing; for any other status, 2xx among them, it returns [True]. *)
Theorem C5_one_request_classified (config : Config.t) (w : world)
        (artist title url : str) :
  strip artist <> [] -> strip title <> [] ->
  outcome (_build_url config artist title
             (strftime (datetime_now w (resolved_zone config w)))) = Ok url ->
  http_posts (trace (post_now_playing config w artist title)) = [url]
  /\ (forall e,
         http_post w url (auth config) 30 = Fails e ->
         is_RequestException e = true ->
         outcome (post_now_playing config w artist title) = Ok false)
  /\ (forall status,
         http_post w url (auth config) 30 = Response status ->
         400 <= status < 600 ->
         outcome (post_now_playing config w artist title) = Ok false)
  /\ (forall status,
         http_post w url (auth config) 30 = Response status ->
         status < 400 \/ 600 <= status ->
         outcome (post_now_playing config w artist title) = Ok true)
  /\ (forall status,
         http_post w url (auth config) 30 = Response status ->
         200 <= status < 300 ->
         outcome (post_now_playing config w artist title) = Ok true).
Proof.
  intros Ha Ht Hu.
  apply is_empty_false in Ha, Ht.
  destruct (post_now_playing_posts config w artist title url Ha Ht Hu) as [Hp Ho].
  split; [exact Hp|]; rewrite Ho.
  assert (Hother : forall status,
             http_post w url (auth config) 30 = Response status ->
             status < 400 \/ 600 <= status ->
             classify (http_post w url (auth config) 30) = Ok true).
  { intros status -> Hs; simpl.
    destruct (N.leb_spec 400 status), (N.ltb_spec status 600);
      simpl; try reflexivity; lia. }
  split; [intros e -> He; simpl; rewrite He; reflexivity|].
  split.
  - intros status -> Hs; simpl.
    destruct (N.leb_spec 400 status), (N.ltb_spec status 600);
      simpl; try reflexivity; lia.
  - split; [exact Hother|].
    intros status Hr Hs; apply (Hother status Hr); lia.
Qed.

Lemma C5_witness :
  let w := Examples.world_with Examples.queen
             (Fails (mk_exn Timeout (py "Read timed out. (read timeout=30)")))
             Examples.london 0%Q in
  outcome (post_now_playing Examples.config w (py "Queen")
             (py "Bohemian Rhapsody")) = Ok false.
Proof.
  intros w.
  assert (Ha : strip (py "Queen") <> []) by (vm_compute; discriminate).
  assert (Ht : strip (py "Bohemian Rhapsody") <> [])
    by (vm_compute; discriminate).
  pose (url := py "https://np.example.org/api?rpuid=1042&startTime=2024-06-01T12:00:00&title=Bohemian+Rhapsody&artist=Queen").
  assert (Hu : outcome (_build_url Examples.config (py "Queen")
                          (py "Bohemian Rhapsody")
                          (strftime (datetime_now w
                                       (resolved_zone Examples.config w))))
               = Ok url) by (vm_compute; reflexivity).
  refine (proj1 (proj2 (C5_one_request_classified Examples.config w
                          (py "Queen") (py "Bohemian Rhapsody") url Ha Ht Hu))
            (mk_exn Timeout (py "Read timed out. (read timeout=30)")) _ _);
    reflexivity.
Defined.

(** C7.  For the file text [Artist: Queen], [Title: Bohemian Rhapsody],
    each line ended by a line feed, the parser returns [Queen] and
    [Bohemian Rhapsody].  With a clock whose year has four digits, the
    timestamp is of the shape [dddd-dd-ddTdd:dd:dd] and nothing more, and
    the URL of the one request that is sent is the endpoint followed by
    [?rpuid=<id>&startTime=<timestamp>&title=Bohemian+Rhapsody&artist=Queen];
    in general a space is sent as [+] and a reserved character as [%XX]. *)
Theorem C7_queen_request (config : Config.t) (w : world) (p : Path) :
  path_exists w p = true ->
  read_text w p
    = Ok (py "Artist: Queen" ++ [0x0A] ++ py "Title: Bohemian Rhapsody" ++ [0x0A]) ->
  valid_datetime (datetime_now w (resolved_zone config w)) = true ->
  1000 <= year (datetime_now w (resolved_zone config w)) ->
  FileParser.parse_file w p
    = ([], Ok (Some (py "Queen"), Some (py "Bohemian Rhapsody")))
  /\ Urllib.quote_plus (py "AC/DC & Friends")
     = ([], Ok (py "AC%2FDC+%26+Friends"))
  /\ exists ts,
      outcome (_get_current_timestamp config w) = Ok ts
      /\ fullmatch TIMESTAMP_SHAPE ts = true
      /\ outcome (_build_url config (py "Queen") (py "Bohemian Rhapsody") ts)
         = Ok (Config.api_endpoint config ++ py "?rpuid="
                 ++ str_of_Z (Config.rpuid config) ++ py "&startTime=" ++ ts
                 ++ py "&title=Bohemian+Rhapsody" ++ py "&artist=Queen")
      /\ http_posts (trace (post_now_playing config w (py "Queen")
                              (py "Bohemian Rhapsody")))
         = [Config.api_endpoint config ++ py "?rpuid="
              ++ str_of_Z (Config.rpuid config) ++ py "&startTime=" ++ ts
              ++ py "&title=Bohemian+Rhapsody" ++ py "&artist=Queen"].
Proof.
  intros He Hr Hv Hy.
  split.
  { rewrite (parse_file_readable w p _ He Hr); vm_compute; reflexivity. }
  split; [vm_compute; reflexivity|].
  exists (strftime (datetime_now w (resolved_zone config w))).
  split; [rewrite timestamp_spec; reflexivity|].
  split; [apply strftime_shape; assumption|].
  assert (Hu : forall ts,
             outcome (_build_url config (py "Queen") (py "Bohemian Rhapsody") ts)
             = Ok (Config.api_endpoint config ++ py "?rpuid="
                     ++ str_of_Z (Config.rpuid config) ++ py "&startTime=" ++ ts
                     ++ py "&title=Bohemian+Rhapsody" ++ py "&artist=Queen")).
  { intros ts; unfold _build_url.
    change (Urllib.quote_plus (py "Queen")) with (@ret str (py "Queen")).
    change (Urllib.quote_plus (py "Bohemian Rhapsody"))
      with (@ret str (py "Bohemian+Rhapsody")).
    cbn [bind ret outcome snd app].
    change (py "?rpuid=") with (py "?" ++ py "rpuid=").
    change (py "&startTime=") with (py "&" ++ py "startTime=").
    change (py "&title=Bohemian+Rhapsody")
      with (py "&" ++ py "title=" ++ py "Bohemian+Rhapsody").
    change (py "&artist=Queen") with (py "&" ++ py "artist=" ++ py "Queen").
    rewrite <- !app_assoc; reflexivity. }
  split; [apply Hu|].
  apply post_now_playing_posts; [reflexivity | reflexivity | apply Hu].
Qed.

Lemma C7_witness :
  let w := Examples.world_with Examples.queen (Response 200)
             Examples.london 1700000000%Q in
  FileParser.parse_file w Examples.watched
  = ([], Ok (Some (py "Queen"), Some (py "Bohemian Rhapsody"))).
Proof.
  intros w.
  refine (proj1 (C7_queen_request Examples.config w Examples.watched _ _ _ _)).
  - reflexivity.
  - reflexivity.
  - vm_compute; reflexivity.
  - vm_compute; discriminate.
Defined.

Lemma post_now_playing_zone_free (config : Config.t) (w : world)
      (artist title : str) :
  timezone_db w (Config.timezone config) = None ->
  outcome (post_now_playing config w artist title)
  = outcome (post_now_playing config (with_utc w) artist title)
  /\ http_posts (trace (post_now_playing config w artist title))
     = http_posts (trace (post_now_playing config (with_utc w) artist title)).
Proof.
  intros Hz.
  destruct (blank artist || blank title) eqn:Hb.
  - unfold post_now_playing.
    destruct (validate_blank artist title Hb) as [msg ->]; split; reflexivity.
  - apply orb_false_iff in Hb; destruct Hb as [Ha Ht].
    rewrite !(post_now_playing_solid _ _ _ _ Ha Ht), !timestamp_spec.
    unfold resolved_zone, zone_warning; rewrite Hz.
    cbn [with_utc timezone_db].
    rewrite !trace_bind, !outcome_bind; cbn [trace outcome fst snd].
    split; reflexivity.
Qed.

(** C8.  For a recognised time zone name the timestamp is the current
    time in that zone, printed by [strftime], and nothing is logged.  For
    an unrecognised name a warning is logged and the timestamp is the
    current time in UTC; [post_now_playing] then returns what it returns,
    and sends the request it sends, in the world where the name resolves to
    UTC.  In both cases the timestamp is produced: nothing is raised. *)
Theorem C8_unknown_zone_is_utc (config : Config.t) (w : world) :
  (forall tz,
      timezone_db w (Config.timezone config) = Some tz ->
      _get_current_timestamp config w
      = ([], Ok (strftime (datetime_now w tz))))
  /\ (timezone_db w (Config.timezone config) = None ->
      _get_current_timestamp config w
      = ([Log WARNING (py "Unknown timezone " ++ Config.timezone config
                          ++ py ", using UTC")],
         Ok (strftime (datetime_now w UTC)))
      /\ forall artist title,
          outcome (post_now_playing config w artist title)
          = outcome (post_now_playing config (with_utc w) artist title)
          /\ http_posts (trace (post_now_playing config w artist title))
             = http_posts
                 (trace (post_now_playing config (with_utc w) artist title)))
  /\ (exists ts, outcome (_get_current_timestamp config w) = Ok ts).
Proof.
  split; [|split].
  - intros tz Hz; rewrite timestamp_spec.
    unfold zone_warning, resolved_zone; rewrite Hz; reflexivity.
  - intros Hz; split.
    + rewrite timestamp_spec.
      unfold zone_warning, resolved_zone; rewrite Hz; reflexivity.
    + intros artist title; apply post_now_playing_zone_free; exact Hz.
  - rewrite timestamp_spec; eexists; reflexivity.
Qed.

Lemma C8_witness :
  let w := Examples.world_with Examples.queen (Response 200)
             Examples.unknown_zone 1700000000%Q in
  _get_current_timestamp Examples.config w
  = ([Log WARNING (py "Unknown timezone Europe/London, using UTC")],
     Ok (py "2024-06-01T12:00:00"))
  /\ outcome (post_now_playing Examples.config w (py "Queen")
                (py "Bohemian Rhapsody")) = Ok true.
Proof.
  intros w.
  assert (Hz : timezone_db w (Config.timezone Examples.config) = None)
    by reflexivity.
  destruct (proj1 (proj2 (C8_unknown_zone_is_utc Examples.config w)) Hz)
    as [Hts Hpost].
  split.
  - rewrite Hts; vm_compute; reflexivity.
  - rewrite (proj1 (Hpost (py "Queen") (py "Bohemian Rhapsody")));
      vm_compute; reflexivity.
Defined.

End ReporterClaims.

(** ** The change handler *)

Section Handler.

Import FileChangeHandler.

Lemma Qltb_lt (a b : Q) : Qltb a b = true <-> (a < b)%Q.
Proof.
  unfold Qltb; rewrite negb_true_iff, <- not_true_iff_false, Qle_bool_iff.
  split; [apply Qnot_le_lt | apply Qlt_not_le].
Qed.

Lemma Qltb_ge (a b : Q) : Qltb a b = false <-> (b <= a)%Q.
Proof.
  unfold Qltb; rewrite negb_false_iff, Qle_bool_iff; reflexivity.
Qed.

Lemma process_file_change_ok (self : t) (w : world) :
  outcome (_process_file_change self w) = Ok tt.
Proof.
  unfold _process_file_change.
  exact (guarded_never_raises _
           (fun e => py "Error processing file change: " ++ message e)).
Qed.

Lemma on_modified_spec (self : t) (ev : event) (w : world) :
  on_modified self ev w =
  ((if accepted self ev w
    then trace (_process_file_change (after_event self (ev, w)) w)
    else []),
   Ok (after_event self (ev, w))).
Proof.
  unfold on_modified, accepted, after_event.
  destruct (is_directory ev); [reflexivity|].
  destruct (str_eqb (src_path ev) (file_path self)); [|reflexivity].
  destruct (Qltb (time_time w - last_modified self) 1); [reflexivity|].
  cbn [negb andb].
  rewrite (M_eta (_process_file_change _ w)), process_file_change_ok.
  cbn [bind ret trace fst]; rewrite app_nil_r; reflexivity.
Qed.

Lemma dispatch_outcome (self : t) (events : list (event * world)) :
  outcome (dispatch self events) = Ok (fold_left after_event events self).
Proof.
  revert self; induction events as [|[ev w] events IH]; intros self;
    [reflexivity|].
  cbn [dispatch fold_left].
  rewrite outcome_bind, on_modified_spec; cbn [outcome snd]; apply IH.
Qed.

Lemma dispatch_cons (self : t) (ev : event) (w : world)
      (events : list (event * world)) :
  trace (dispatch self ((ev, w) :: events)) =
  trace (on_modified self ev w)
        ++ trace (dispatch (after_event self (ev, w)) events).
Proof.
  cbn [dispatch]; rewrite trace_bind, on_modified_spec; reflexivity.
Qed.

Lemma dispatch_app (self : t) (before after : list (event * world)) :
  trace (dispatch self (before ++ after)) =
  trace (dispatch self before)
        ++ trace (dispatch (fold_left after_event before self) after).
Proof.
  revert self; induction before as [|[ev w] before IH]; intros self;
    [reflexivity|].
  cbn [app fold_left]; rewrite !dispatch_cons, IH, app_assoc; reflexivity.
Qed.

Lemma eligible_accepted (self : t) (ev : event) (w : world) :
  eligible self ev ->
  accepted self ev w = negb (Qltb (time_time w - last_modified self) 1).
Proof.
  intros [Hd Hp]; unfold accepted; rewrite Hd.
  apply str_eqb_eq in Hp; rewrite Hp; reflexivity.
Qed.

Lemma eligible_after (self : t) (ev : event) (w : world) :
  eligible self ev ->
  after_event self (ev, w) =
  if Qltb (time_time w - last_modified self) 1 then self
  else set_last_modified self (time_time w).
Proof.
  intros [Hd Hp]; unfold after_event; rewrite Hd.
  apply str_eqb_eq in Hp; rewrite Hp; reflexivity.
Qed.

End Handler.

(** ** The change handler: debounce and isolation of failures *)

Section HandlerClaims.

Import FileChangeHandler.

(** C6.  An event for the watched file that comes less than one second
    after the last accepted one leaves the handler as it was and does
    nothing.  One that comes a second or more after it stores its time as
    the last accepted one and runs [_process_file_change].  So of two such
    events, the first of them accepted, only the first is processed when
    the second follows within the second, and both are when it follows a
    second or more later. *)
Theorem C6_debounce (self : t) (ev1 : event) (w1 : world) :
  eligible self ev1 ->
  let self1 := set_last_modified self (time_time w1) in
  ((time_time w1 - last_modified self < 1)%Q ->
   on_modified self ev1 w1 = ([], Ok self))
  /\ ((1 <= time_time w1 - last_modified self)%Q ->
      on_modified self ev1 w1 = (trace (_process_file_change self1 w1), Ok self1)
      /\ last_modified self1 = time_time w1
      /\ forall (ev2 : event) (w2 : world),
          eligible self ev2 ->
          let self2 := set_last_modified self1 (time_time w2) in
          ((time_time w2 - time_time w1 < 1)%Q ->
           dispatch self [(ev1, w1); (ev2, w2)]
           = (trace (_process_file_change self1 w1), Ok self1))
          /\ ((1 <= time_time w2 - time_time w1)%Q ->
              dispatch self [(ev1, w1); (ev2, w2)]
              = (trace (_process_file_change self1 w1)
                   ++ trace (_process_file_change self2 w2), Ok self2))).
Proof.
  intros He1 self1; split.
  - intros Hlt; apply Qltb_lt in Hlt.
    rewrite on_modified_spec, (eligible_accepted _ _ _ He1),
      (eligible_after _ _ _ He1), Hlt; reflexivity.
  - intros Hge; apply Qltb_ge in Hge.
    assert (H1 : on_modified self ev1 w1
                 = (trace (_process_file_change self1 w1), Ok self1)).
    { rewrite on_modified_spec, (eligible_accepted _ _ _ He1),
        (eligible_after _ _ _ He1), Hge; reflexivity. }
    split; [exact H1|]; split; [reflexivity|].
    intros ev2 w2 He2 self2.
    assert (He2' : eligible self1 ev2) by exact He2.
    split.
    + intros Hlt; apply Qltb_lt in Hlt.
      cbn [dispatch]; rewrite H1; cbn [bind].
      rewrite on_modified_spec, (eligible_accepted _ _ _ He2'),
        (eligible_after _ _ _ He2').
      cbn [last_modified self1 set_last_modified]; rewrite Hlt.
      cbn [negb bind ret]; rewrite !app_nil_r; reflexivity.
    + intros Hge2; apply Qltb_ge in Hge2.
      cbn [dispatch]; rewrite H1; cbn [bind].
      rewrite on_modified_spec, (eligible_accepted _ _ _ He2'),
        (eligible_after _ _ _ He2').
      cbn [last_modified self1 set_last_modified]; rewrite Hge2.
      cbn [negb bind ret]; rewrite !app_nil_r; reflexivity.
Qed.

Lemma C6_witness :
  let ev := mk_event false Examples.watched in
  let w1 := Examples.world_with Examples.queen (Response 200)
              Examples.london 1700000000%Q in
  let w2 := Examples.world_with (py "Artist: Abba") (Response 200)
              Examples.london (17000000004 # 10)%Q in
  let self1 := set_last_modified Examples.handler 1700000000%Q in
  dispatch Examples.handler [(ev, w1); (ev, w2)]
  = (trace (_process_file_change self1 w1), Ok self1).
Proof.
  intros ev w1 w2 self1.
  assert (He : eligible Examples.handler ev) by (split; reflexivity).
  assert (H1 : (1 <= time_time w1 - last_modified Examples.handler)%Q)
    by (vm_compute; discriminate).
  assert (H2 : (time_time w2 - time_time w1 < 1)%Q)
    by (vm_compute; reflexivity).
  exact (proj1 (proj2 (proj2 (proj2 (C6_debounce Examples.handler ev w1 He) H1))
                  ev w2 He) H2).
Defined.

(** C9.  Whatever the world answers, [_process_file_change] ends
    normally: an exception from reading, parsing or reporting is logged
    and goes no further.  Hence [on_modified] and the whole dispatch of any
    list of events end normally, the handler after an event depends on the
    clock alone and not on how the processing went, and the events after a
    failed one are handled as they would be from that handler.  A file that
    cannot be read and an unexpected exception from the request are two
    instances. *)
Theorem C9_failures_stay_inside (self : t) (w : world) :
  outcome (_process_file_change self w) = Ok tt
  /\ (forall ev, outcome (on_modified self ev w) = Ok (after_event self (ev, w)))
  /\ (forall events,
         outcome (dispatch self events) = Ok (fold_left after_event events self))
  /\ (forall before after,
         trace (dispatch self (before ++ after))
         = trace (dispatch self before)
             ++ trace (dispatch (fold_left after_event before self) after))
  /\ (forall e,
         path_exists w (file_path self) = true ->
         read_text w (file_path self) = Raise e ->
         exists e',
           outcome (FileParser.parse_file w (file_path self)) = Raise e'
           /\ _process_file_change self w
              = ([Log INFO (py "File changed: " ++ file_path self);
                  Log ERROR (py "Error processing file change: " ++ message e')],
                 Ok tt))
  /\ (let boom := Examples.world_with Examples.queen
                    (Fails (mk_exn RuntimeError (py "boom")))
                    Examples.london 1700000000%Q in
      outcome (RadioPlayerAPI.post_now_playing Examples.config boom
                 (py "Queen") (py "Bohemian Rhapsody"))
      = Raise (mk_exn RuntimeError (py "boom"))
      /\ _process_file_change Examples.handler boom
         = ([Log INFO (py "File changed: /var/lib/radio/nowplaying.txt");
             Log INFO (py "Extracted - Artist: 'Queen', Title: 'Bohemian Rhapsody'");
             Log DEBUG (py "POST Request: https://np.example.org/api?rpuid=1042&startTime=2024-06-01T12:00:00&title=Bohemian+Rhapsody&artist=Queen");
             HttpPost (py "https://np.example.org/api?rpuid=1042&startTime=2024-06-01T12:00:00&title=Bohemian+Rhapsody&artist=Queen")
                      (py "station", py "secret") 30;
             Log ERROR (py "Error processing file change: boom")],
            Ok tt)
      /\ (let ev := mk_event false Examples.watched in
          let later := Examples.world_with Examples.queen (Response 200)
                         Examples.london 1700000005%Q in
          http_posts (trace (dispatch Examples.handler
                               [(ev, Examples.unreadable); (ev, boom);
                                (ev, later)]))
          = [py "https://np.example.org/api?rpuid=1042&startTime=2024-06-01T12:00:00&title=Bohemian+Rhapsody&artist=Queen"])).
Proof.
  split; [apply process_file_change_ok|].
  split; [intros ev; rewrite on_modified_spec; reflexivity|].
  split; [intros events; apply dispatch_outcome|].
  split; [intros before after; apply dispatch_app|].
  split.
  - intros e He Hr.
    pose proof (parse_file_unreadable w _ e He Hr) as Hp.
    eexists; split; [rewrite Hp; reflexivity|].
    unfold _process_file_change; rewrite Hp; reflexivity.
  - repeat split; vm_compute; reflexivity.
Qed.

Lemma C9_witness :
  _process_file_change Examples.handler Examples.unreadable
  = ([Log INFO (py "File changed: /var/lib/radio/nowplaying.txt");
      Log ERROR (py "Error processing file change: Error reading file /var/lib/radio/nowplaying.txt: Permission denied")],
     Ok tt).
Proof.
  destruct (proj1 (proj2 (proj2 (proj2 (proj2
              (C9_failures_stay_inside Examples.handler Examples.unreadable)))))
              (mk_exn PermissionError (py "Permission denied")) eq_refl eq_refl)
    as [e' [He' Hp]].
  rewrite Hp.
  assert (E : e' = mk_exn OSError (py "Error reading file /var/lib/radio/nowplaying.txt: Permission denied")).
  { vm_compute in He'; inversion He'; reflexivity. }
  rewrite E; reflexivity.
Defined.

End HandlerClaims.

(** ** Start-up *)

Section Startup.

Import RadioPlayerMonitor.

Lemma post_at_most_once (config : Config.t) (w : world) (artist title : str) :
  (List.length (http_posts
                  (trace (RadioPlayerAPI.post_now_playing config w artist title)))
   <= 1)%nat.
Proof.
  destruct (blank artist || blank title) eqn:Hb.
  - destruct (post_now_playing_blank config w artist title Hb) as [msg ->].
    simpl; lia.
  - apply orb_false_iff in Hb; destruct Hb as [Ha Ht].
    rewrite (post_now_playing_solid _ _ _ _ Ha Ht), timestamp_spec.
    rewrite trace_bind; cbn [trace outcome fst snd].
    rewrite trace_bind, build_url_quiet, !http_posts_app.
    assert (Hz : http_posts (zone_warning config w) = []).
    { unfold zone_warning; destruct (timezone_db w (Config.timezone config));
        reflexivity. }
    rewrite Hz; cbn [app http_posts].
    destruct (outcome (RadioPlayerAPI._build_url config artist title _)) as [url|e].
    + rewrite request_posts_once; simpl; lia.
    + simpl; lia.
Qed.

Lemma process_initial_file_ok (config : Config.t) (w : world) :
  outcome (_process_initial_file config w) = Ok tt.
Proof.
  unfold _process_initial_file.
  exact (guarded_never_raises _
           (fun e => py "Error processing initial file: " ++ message e)).
Qed.

(** The initial pass when both values were found: one call of the reporter. *)
Lemma initial_pass_both (config : Config.t) (w : world)
      (raw artist title : str) :
  path_exists w (Config.file_path config) = true ->
  read_text w (Config.file_path config) = Ok raw ->
  FileParser._extract_metadata raw = (Some artist, Some title) ->
  trace (_process_initial_file config w)
  = Log INFO (py "Initial file content - Artist: '" ++ artist
                 ++ py "', Title: '" ++ title ++ py "'")
      :: trace (RadioPlayerAPI.post_now_playing config w artist title)
      ++ match outcome (RadioPlayerAPI.post_now_playing config w artist title) with
         | Ok _ => []
         | Raise e =>
             [Log ERROR (py "Error processing initial file: " ++ message e)]
         end.
Proof.
  intros He Hr E.
  destruct (extract_metadata_solid _ _ _ E) as [Htruthy _].
  unfold _process_initial_file.
  rewrite (parse_file_readable w _ raw He Hr), E.
  destruct (strip raw) as [|c s] eqn:Es;
    [rewrite (blank_text_extracts_nothing raw Es) in E; discriminate E|].
  cbn [is_empty bind]; rewrite Htruthy.
  destruct (RadioPlayerAPI.post_now_playing config w artist title)
    as [tr [b|e]]; cbn; rewrite ?app_nil_r; reflexivity.
Qed.

(** The initial pass in every other case: one line in the log after the
    parser's, and no request. *)
Lemma initial_pass_absent (config : Config.t) (w : world) :
  (exists e, outcome (FileParser.parse_file w (Config.file_path config)) = Raise e)
  \/ (exists a t,
         outcome (FileParser.parse_file w (Config.file_path config)) = Ok (a, t)
         /\ (a = None \/ t = None)) ->
  exists entry,
    trace (_process_initial_file config w)
    = trace (FileParser.parse_file w (Config.file_path config)) ++ [entry]
    /\ http_posts [entry] = [].
Proof.
  unfold _process_initial_file.
  destruct (FileParser.parse_file w (Config.file_path config)) as [tp r].
  intros [[e He]|[a [t [Hp Hnone]]]]; cbn [outcome snd] in *; subst r.
  - eexists; split; reflexivity.
  - destruct Hnone as [-> | ->]; [|destruct a]; eexists; split; reflexivity.
Qed.

Lemma initial_pass_quiet (config : Config.t) (w : world) :
  (exists e, outcome (FileParser.parse_file w (Config.file_path config)) = Raise e)
  \/ (exists a t,
         outcome (FileParser.parse_file w (Config.file_path config)) = Ok (a, t)
         /\ (a = None \/ t = None)) ->
  http_posts (trace (_process_initial_file config w)) = [].
Proof.
  intros H; destruct (initial_pass_absent config w H) as [entry [-> Hentry]].
  rewrite http_posts_app, parse_file_quiet, Hentry; reflexivity.
Qed.

Lemma initial_pass_at_most_once (config : Config.t) (w : world) :
  (List.length (http_posts (trace (_process_initial_file config w))) <= 1)%nat.
Proof.
  destruct (path_exists w (Config.file_path config)) eqn:He.
  - destruct (read_text w (Config.file_path config)) as [raw|e] eqn:Hr.
    + destruct (FileParser._extract_metadata raw) as [[a|] [t|]] eqn:E.
      * rewrite (initial_pass_both config w raw a t He Hr E).
        cbn [http_posts]; rewrite http_posts_app.
        pose proof (post_at_most_once config w a t) as Hle.
        destruct (outcome (RadioPlayerAPI.post_now_playing config w a t));
          cbn [http_posts]; rewrite app_nil_r; exact Hle.
      * rewrite initial_pass_quiet; [simpl; lia|].
        right; exists (Some a), None.
        rewrite (parse_file_readable w _ raw He Hr), E; auto.
      * rewrite initial_pass_quiet; [simpl; lia|].
        right; exists None, (Some t).
        rewrite (parse_file_readable w _ raw He Hr), E; auto.
      * rewrite initial_pass_quiet; [simpl; lia|].
        right; exists None, None.
        rewrite (parse_file_readable w _ raw He Hr), E; auto.
    + rewrite initial_pass_quiet; [simpl; lia|].
      left; rewrite (parse_file_unreadable w _ e He Hr); eexists; reflexivity.
  - rewrite initial_pass_quiet; [simpl; lia|].
    left; rewrite (parse_file_missing w _ He); eexists; reflexivity.
Qed.

Lemma startup_spec (config : Config.t) (w : world) :
  path_exists w (Config.file_path config) = true ->
  startup config w
  = (trace (_process_initial_file config w)
       ++ [ObserverSchedule (Config.file_path config); ObserverStart;
           Log INFO (py "Started monitoring: " ++ Config.file_path config)],
     Ok (FileChangeHandler.__init__ (Config.file_path config) config)).
Proof.
  intros He; unfold startup; rewrite He; cbn [negb].
  rewrite (M_eta (_process_initial_file config w)), process_initial_file_ok.
  reflexivity.
Qed.

Lemma start_monitoring_spec (config : Config.t) (w : world)
      (events : list (FileChangeHandler.event * world)) :
  path_exists w (Config.file_path config) = true ->
  start_monitoring config w events
  = (trace (_process_initial_file config w)
       ++ [ObserverSchedule (Config.file_path config); ObserverStart;
           Log INFO (py "Started monitoring: " ++ Config.file_path config)]
       ++ trace (FileChangeHandler.dispatch
                   (FileChangeHandler.__init__ (Config.file_path config) config)
                   events)
       ++ [Log INFO (py "Received interrupt signal, stopping...");
           ObserverStop; Log INFO (py "File monitoring stopped")],
     Ok tt).
Proof.
  intros He; unfold start_monitoring; rewrite (startup_spec config w He).
  cbn [outcome snd bind].
  rewrite (M_eta (FileChangeHandler.dispatch _ events)), dispatch_outcome.
  cbn [bind logging emit try_except try_finally stop_monitoring app].
  rewrite <- !app_assoc; reflexivity.
Qed.

Lemma start_monitoring_missing (config : Config.t) (w : world)
      (events : list (FileChangeHandler.event * world)) :
  path_exists w (Config.file_path config) = false ->
  start_monitoring config w events
  = ([Log ERROR (py "Failed to start monitoring: " ++ py "File not found: "
                    ++ Config.file_path config)],
     Raise (mk_exn FileNotFoundError
              (py "File not found: " ++ Config.file_path config))).
Proof.
  intros He; unfold start_monitoring, startup; rewrite He; reflexivity.
Qed.

End Startup.

(** ** Start-up: the initial pass *)

Section StartupClaims.

Import RadioPlayerMonitor.

(** C2, as it is worded, fails: with an empty file at the start the
    reporter is not called at all; two warnings are logged and no request
    is sent. *)
Lemma C2_counterexample :
  let w := Examples.world_with [] (Response 200) Examples.london
             1700000000%Q in
  path_exists w (Config.file_path Examples.config) = true
  /\ _process_initial_file Examples.config w
     = ([Log WARNING (py "File is empty");
         Log WARNING (py "No valid artist/title found in initial file")],
        Ok tt)
  /\ http_posts (trace (start_monitoring Examples.config w [])) = [].
Proof.
  intros w; split; [reflexivity|]; split; vm_compute; reflexivity.
Qed.

(** C2, as the code has it.  When the watched file exists at the start,
    [start_monitoring] runs the initial pass first, from the world of the
    start alone, and whatever events follow come after it in the trace.
    The pass ends normally and sends at most one request.  When the
    extractor finds both values it calls the reporter once, on that pair;
    when a value is missing, the file is empty or it cannot be read, the
    reporter is not called and no request is sent.  When the file does not
    exist, [start_monitoring] fails with [FileNotFoundError] and reports
    nothing. *)
Theorem C2_initial_pass_at_most_once (config : Config.t) (w : world) :
  let p := Config.file_path config in
  (path_exists w p = false ->
   forall events,
     start_monitoring config w events
     = ([Log ERROR (py "Failed to start monitoring: " ++ py "File not found: "
                       ++ p)],
        Raise (mk_exn FileNotFoundError (py "File not found: " ++ p))))
  /\ (path_exists w p = true ->
      outcome (_process_initial_file config w) = Ok tt
      /\ (forall events,
             start_monitoring config w events
             = (trace (_process_initial_file config w)
                  ++ [ObserverSchedule p; ObserverStart;
                      Log INFO (py "Started monitoring: " ++ p)]
                  ++ trace (FileChangeHandler.dispatch
                              (FileChangeHandler.__init__ p config) events)
                  ++ [Log INFO (py "Received interrupt signal, stopping...");
                      ObserverStop; Log INFO (py "File monitoring stopped")],
                Ok tt))
      /\ (List.length (http_posts (trace (_process_initial_file config w)))
          <= 1)%nat
      /\ (forall raw artist title,
             read_text w p = Ok raw ->
             FileParser._extract_metadata raw = (Some artist, Some title) ->
             trace (_process_initial_file config w)
             = Log INFO (py "Initial file content - Artist: '" ++ artist
                            ++ py "', Title: '" ++ title ++ py "'")
                 :: trace (RadioPlayerAPI.post_now_playing config w artist title)
                 ++ match outcome (RadioPlayerAPI.post_now_playing
                                     config w artist title) with
                    | Ok _ => []
                    | Raise e =>
                        [Log ERROR (py "Error processing initial file: "
                                       ++ message e)]
                    end)
      /\ (forall raw,
             read_text w p = Ok raw ->
             fst (FileParser._extract_metadata raw) = None
             \/ snd (FileParser._extract_metadata raw) = None ->
             exists entry,
               trace (_process_initial_file config w)
               = trace (FileParser.parse_file w p) ++ [Log WARNING entry]
               /\ http_posts (trace (_process_initial_file config w)) = [])
      /\ (forall e,
             read_text w p = Raise e ->
             exists entry,
               trace (_process_initial_file config w) = [Log ERROR entry]
               /\ http_posts (trace (_process_initial_file config w)) = [])).
Proof.
  intros p; split.
  - intros He events; apply start_monitoring_missing; exact He.
  - intros He.
    split; [apply process_initial_file_ok|].
    split; [intros events; apply start_monitoring_spec; exact He|].
    split; [apply initial_pass_at_most_once|].
    split; [intros raw artist title Hr E;
            exact (initial_pass_both config w raw artist title He Hr E)|].
    split.
    + intros raw Hr Hnone.
      pose proof (parse_file_readable w p raw He Hr) as Hp.
      unfold _process_initial_file; fold p; rewrite Hp.
      destruct (FileParser._extract_metadata raw) as [a t].
      cbn [fst snd] in Hnone.
      destruct Hnone as [-> | ->]; [|destruct a];
        destruct (is_empty (strip raw)); eexists; split; reflexivity.
    + intros e Hr.
      pose proof (parse_file_unreadable w p e He Hr) as Hp.
      unfold _process_initial_file; fold p; rewrite Hp.
      eexists; split; reflexivity.
Qed.

Lemma C2_witness :
  let w := Examples.world_with Examples.queen (Response 200) Examples.london
             1700000000%Q in
  http_posts (trace (start_monitoring Examples.config w []))
  = [py "https://np.example.org/api?rpuid=1042&startTime=2024-06-01T12:00:00&title=Bohemian+Rhapsody&artist=Queen"].
Proof.
  intros w.
  assert (He : path_exists w (Config.file_path Examples.config) = true)
    by reflexivity.
  rewrite (proj1 (proj2 (proj2 (C2_initial_pass_at_most_once Examples.config w)
                           He)) []).
  vm_compute; reflexivity.
Defined.

End StartupClaims.

(** * More of the code *)

(** ** Trimming, once more *)

Section Clean.

Lemma strip_nil_all_space (s : str) : strip s = [] <-> all_space s.
Proof.
  split; [|apply strip_all_space].
  intros H.
  destruct (lstrip_decomp s) as [ws [Hws E]].
  destruct (rstrip_decomp (lstrip s)) as [ws' [Hws' E']].
  unfold strip in H; rewrite H in E'; simpl in E'.
  rewrite E, E'; apply Forall_app; split; assumption.
Qed.

Lemma blank_all_space (s : str) : blank s = true <-> all_space s.
Proof.
  unfold blank; rewrite <- strip_nil_all_space.
  destruct (strip s); simpl; split; congruence.
Qed.

Lemma not_blank_not_all_space (s : str) : blank s = false <-> ~ all_space s.
Proof.
  rewrite <- blank_all_space; destruct (blank s); split; congruence.
Qed.

Lemma lstrip_idem (s : str) : lstrip (lstrip s) = lstrip s.
Proof.
  destruct (lstrip s) as [|c r] eqn:E; [reflexivity|].
  apply lstrip_keep; exact (lstrip_head s c r E).
Qed.

Lemma rstrip_idem (s : str) : rstrip (rstrip s) = rstrip s.
Proof. unfold rstrip; rewrite rev_involutive, lstrip_idem; reflexivity. Qed.

(** Trimming the right end keeps a first character that is not white
    space in its place. *)
Lemma lstrip_rstrip_keep (x : str) : lstrip x = x -> lstrip (rstrip x) = rstrip x.
Proof.
  intros Hx; destruct (rstrip_decomp x) as [ws [_ E]].
  destruct (rstrip x) as [|c r] eqn:Er; [reflexivity|].
  apply lstrip_keep.
  rewrite E in Hx; simpl in Hx.
  destruct (isspace c) eqn:Ec; [|reflexivity].
  rewrite (lstrip_head _ _ _ Hx) in Ec; discriminate Ec.
Qed.

Lemma strip_idem (s : str) : strip (strip s) = strip s.
Proof.
  unfold strip at 1.
  assert (H : lstrip (strip s) = strip s).
  { unfold strip; apply lstrip_rstrip_keep, lstrip_idem. }
  rewrite H; unfold strip; apply rstrip_idem.
Qed.

Import FileParser.

(** The loop stores clean values only. *)
Lemma extract_loop_clean (lines : list str) (a t : option str) :
  clean a -> clean t ->
  clean (fst (extract_loop lines a t)) /\ clean (snd (extract_loop lines a t)).
Proof.
  revert a t; induction lines as [|line lines IH]; intros a t Ha Ht;
    [split; assumption|].
  cbn [extract_loop].
  destruct (is_empty (strip line)); [apply IH; assumption|].
  destruct (Re.pattern_match ARTIST_PATTERN (strip line)) as [g|] eqn:EA.
  - apply IH; [|assumption].
    split; [|apply strip_idem].
    exact (proj1 (group_of_trimmed_line (py "Artist") line g EA)).
  - destruct (Re.pattern_match TITLE_PATTERN (strip line)) as [g|] eqn:ET.
    + apply IH; [assumption|].
      split; [|apply strip_idem].
      exact (proj1 (group_of_trimmed_line (py "Title") line g ET)).
    + apply IH; assumption.
Qed.

End Clean.

(** ** The parser on its own *)

Section ParserExtras.

Import FileParser.

(** X1.  [parse_file] trims the whole text before it splits it into
    lines, and that changes nothing: for a readable file the result is
    [_extract_metadata] of the text as it was read.  The only trace of the
    trimming is the warning that the file is empty, logged exactly when the
    text is white space from end to end; the result is then the pair of
    two absent values. *)
Theorem X1_parse_file_reads_whole_text (w : world) (p : Path) (raw : str) :
  path_exists w p = true -> read_text w p = Ok raw ->
  _extract_metadata (strip raw) = _extract_metadata raw
  /\ (all_space raw ->
      parse_file w p = ([Log WARNING (py "File is empty")], Ok (None, None)))
  /\ (~ all_space raw -> parse_file w p = ([], Ok (_extract_metadata raw))).
Proof.
  intros He Hr; split; [apply extract_metadata_strip|].
  rewrite (parse_file_readable w p raw He Hr); split.
  - intros H; pose proof (proj2 (strip_nil_all_space raw) H) as E.
    rewrite (blank_text_extracts_nothing raw E), E; reflexivity.
  - intros H; apply not_blank_not_all_space in H.
    unfold blank in H; rewrite H; reflexivity.
Qed.

Lemma X1_witness :
  let raw := [0x20; 0x0A; 0x09] ++ py "title: Waterloo" ++ [0x0D; 0x0A; 0xA0] in
  let w := Examples.world_with raw (Response 200) Examples.london 0%Q in
  parse_file w Examples.watched = ([], Ok (None, Some (py "Waterloo"))).
Proof.
  intros raw w.
  assert (Hn : ~ all_space raw).
  { intros H; apply strip_all_space in H; vm_compute in H; discriminate H. }
  rewrite (proj2 (proj2 (X1_parse_file_reads_whole_text w Examples.watched raw
                           eq_refl eq_refl)) Hn).
  vm_compute; reflexivity.
Defined.



(** X3.  Every value [_extract_metadata] returns is clean: it is not
    empty and has no white space at either end.  A pair it returns
    therefore always passes [_validate_metadata], without a warning: the
    reporter never rejects what the parser found. *)
Theorem X3_extracted_values_are_clean (content : str) :
  clean (fst (_extract_metadata content))
  /\ clean (snd (_extract_metadata content))
  /\ (forall artist title,
         _extract_metadata content = (Some artist, Some title) ->
         truthy artist && truthy title = true
         /\ RadioPlayerAPI._validate_metadata artist title = ([], Ok true)).
Proof.
  destruct (extract_loop_clean (splitlines content) None None I I) as [Ha Ht].
  fold (_extract_metadata content) in Ha, Ht.
  split; [exact Ha|]; split; [exact Ht|].
  intros artist title E; rewrite E in Ha, Ht; simpl in Ha, Ht.
  destruct Ha as [Ha Ha'], Ht as [Ht Ht'].
  split; [destruct artist; [congruence|]; destruct title; [congruence|];
          reflexivity|].
  apply validate_solid; unfold blank.
  - rewrite Ha'; apply is_empty_false; exact Ha.
  - rewrite Ht'; apply is_empty_false; exact Ht.
Qed.

Lemma X3_witness :
  RadioPlayerAPI._validate_metadata (py "Queen") (py "Bohemian Rhapsody")
  = ([], Ok true).
Proof.
  refine (proj2 (proj2 (proj2 (X3_extracted_values_are_clean Examples.queen))
                   (py "Queen") (py "Bohemian Rhapsody") _)).
  vm_compute; reflexivity.
Defined.

End ParserExtras.

(** ** Lines that do not count, and the order of the lines *)

Section LineOrder.

Import FileParser.

Lemma splitlines_from_line (l : str) (cur s : str) :
  one_line l ->
  splitlines_from false cur (l ++ 0x0A :: s)
  = (rev cur ++ l) :: splitlines_from false [] s.
Proof.
  intros H; revert cur; induction H as [|c l Hc _ IH]; intros cur.
  - cbn [app splitlines_from andb].
    change (is_linebreak 10) with true; change (10 =? 13) with false.
    cbv iota; rewrite app_nil_r; reflexivity.
  - cbn [app splitlines_from andb]; rewrite Hc, IH.
    cbn [rev]; rewrite <- app_assoc; reflexivity.
Qed.

(** Splitting undoes the joining of lines that hold no line boundary. *)
Lemma splitlines_unlines (lines : list str) :
  Forall one_line lines -> splitlines (unlines lines) = lines.
Proof.
  induction 1 as [|l lines Hl _ IH]; [reflexivity|].
  unfold splitlines in *; cbn [unlines flat_map].
  rewrite <- app_assoc; cbn [app].
  rewrite (splitlines_from_line l [] _ Hl); cbn [rev app].
  fold (unlines lines); rewrite IH; reflexivity.
Qed.

Lemma one_line_app (l1 l2 : list str) :
  Forall one_line l1 -> Forall one_line l2 -> Forall one_line (l1 ++ l2).
Proof. intros H1 H2; apply Forall_app; split; assumption. Qed.

(** X4.  In a text whose lines are each ended by a line feed, a line that
    matches neither pattern can be taken out, wherever it stands, and an
    artist line and a title line that follow one another can be exchanged:
    [_extract_metadata] returns the same pair. *)
Theorem X4_unknown_lines_and_order (before after : list str) :
  Forall one_line before -> Forall one_line after ->
  (forall junk,
      one_line junk ->
      no_match ARTIST_PATTERN junk -> no_match TITLE_PATTERN junk ->
      _extract_metadata (unlines (before ++ junk :: after))
      = _extract_metadata (unlines (before ++ after)))
  /\ (forall la lt,
         one_line la -> one_line lt ->
         matches ARTIST_PATTERN la -> matches TITLE_PATTERN lt ->
         _extract_metadata (unlines (before ++ la :: lt :: after))
         = _extract_metadata (unlines (before ++ lt :: la :: after))).
Proof.
  intros Hb Ha; unfold _extract_metadata; split.
  - intros junk Hj HA HT.
    rewrite !splitlines_unlines
      by (apply one_line_app; [assumption | try constructor; assumption]).
    rewrite !extract_loop_app, (ignored_step junk after _ _ HA HT).
    reflexivity.
  - intros la lt Hla Hlt [ga Hga] [gt Hgt].
    rewrite !splitlines_unlines
      by (apply one_line_app; [assumption | repeat constructor; assumption]).
    rewrite !extract_loop_app.
    rewrite (artist_step la ga _ _ _ Hga), (title_step lt gt _ _ _ Hgt).
    rewrite (title_step lt gt _ _ _ Hgt), (artist_step la ga _ _ _ Hga).
    reflexivity.
Qed.

Lemma X4_witness :
  _extract_metadata
    (unlines [py "Now playing"; py "Artist: Queen"; py "Title: Innuendo";
              py "Album: Innuendo"])
  = _extract_metadata
      (unlines [py "Now playing"; py "Title: Innuendo"; py "Artist: Queen";
                py "Album: Innuendo"]).
Proof.
  refine (proj2 (X4_unknown_lines_and_order [py "Now playing"]
                   [py "Album: Innuendo"] _ _)
            (py "Artist: Queen") (py "Title: Innuendo") _ _ _ _).
  - repeat constructor.
  - repeat constructor.
  - repeat constructor.
  - repeat constructor.
  - exists (py "Queen"); vm_compute; reflexivity.
  - exists (py "Innuendo"); vm_compute; reflexivity.
Defined.

End LineOrder.

(** ** The reporter on its own *)

Section ReporterExtras.

Import RadioPlayerAPI.

(** X5.  [_validate_metadata] never raises, and it accepts a pair exactly
    when each field holds a character that is not white space.  An empty
    field is reported as missing, a field of white space only as empty
    after stripping; every rejection logs one warning and an acceptance
    logs nothing. *)
Theorem X5_validate_metadata_decides (artist title : str) :
  (outcome (_validate_metadata artist title) = Ok true
   <-> ~ all_space artist /\ ~ all_space title)
  /\ (artist = [] \/ title = [] ->
      _validate_metadata artist title
      = ([Log WARNING (py "Missing artist or title data")], Ok false))
  /\ (artist <> [] -> title <> [] -> all_space artist \/ all_space title ->
      _validate_metadata artist title
      = ([Log WARNING (py "Empty artist or title after stripping whitespace")],
         Ok false))
  /\ (~ all_space artist -> ~ all_space title ->
      _validate_metadata artist title = ([], Ok true)).
Proof.
  assert (Hyes : ~ all_space artist -> ~ all_space title ->
                 _validate_metadata artist title = ([], Ok true)).
  { intros Ha Ht; apply validate_solid; apply not_blank_not_all_space;
      assumption. }
  assert (Hmiss : artist = [] \/ title = [] ->
      _validate_metadata artist title
      = ([Log WARNING (py "Missing artist or title data")], Ok false)).
  { unfold _validate_metadata; intros [-> | ->]; [reflexivity|].
    destruct artist; reflexivity. }
  assert (Hblank : artist <> [] -> title <> [] ->
      all_space artist \/ all_space title ->
      _validate_metadata artist title
      = ([Log WARNING (py "Empty artist or title after stripping whitespace")],
         Ok false)).
  { intros Ha Ht H; unfold _validate_metadata.
    destruct artist as [|a artist]; [congruence|].
    destruct title as [|t title]; [congruence|].
    cbn [truthy is_empty negb orb].
    rewrite !length_zero_is_empty.
    fold (blank (a :: artist)) (blank (t :: title)).
    destruct H as [H|H]; apply blank_all_space in H; rewrite H;
      [reflexivity | rewrite orb_true_r; reflexivity]. }
  split; [|split; [exact Hmiss | split; [exact Hblank | exact Hyes]]].
  split.
  - intros H.
    destruct (blank artist) eqn:Ba.
    + destruct (validate_blank artist title) as [msg Hm];
        [rewrite Ba; reflexivity|].
      rewrite Hm in H; discriminate H.
    + destruct (blank title) eqn:Bt.
      * destruct (validate_blank artist title) as [msg Hm];
          [rewrite Bt; apply orb_true_r|].
        rewrite Hm in H; discriminate H.
      * split; apply not_blank_not_all_space; assumption.
  - intros [Ha Ht]; rewrite (Hyes Ha Ht); reflexivity.
Qed.

Lemma X5_witness :
  _validate_metadata (py "Queen") [0x20; 0x09]
  = ([Log WARNING (py "Empty artist or title after stripping whitespace")],
     Ok false).
Proof.
  refine (proj1 (proj2 (proj2 (X5_validate_metadata_decides (py "Queen")
                                 [0x20; 0x09]))) _ _ _).
  - discriminate.
  - discriminate.
  - right; repeat constructor.
Defined.

Lemma shiftr_below (c : N) (n k : N) : c < k * 2 ^ n -> N.shiftr c n < k.
Proof.
  intros H; rewrite N.shiftr_div_pow2.
  apply N.Div0.div_lt_upper_bound; lia.
Qed.

Lemma low_six_bits (x : N) : N.land x 0x3F < 64.
Proof.
  change 0x3F with (N.ones 6); rewrite N.land_ones.
  apply N.mod_lt; discriminate.
Qed.

Lemma utf8_char_bytes_small (c : char) :
  match Urllib.utf8_encode_char c with
  | Some bs => Forall (fun b => b < 256) bs
  | None => True
  end.
Proof.
  unfold Urllib.utf8_encode_char.
  pose proof (low_six_bits c) as L0.
  pose proof (low_six_bits (N.shiftr c 6)) as L1.
  pose proof (low_six_bits (N.shiftr c 12)) as L2.
  destruct (N.ltb_spec c 0x80);
    [repeat (apply Forall_cons; [cbv beta; lia|]); apply Forall_nil|].
  destruct (N.ltb_spec c 0x800).
  { assert (N.shiftr c 6 < 32) by (apply shiftr_below; simpl; lia).
    repeat (apply Forall_cons; [cbv beta; lia|]); apply Forall_nil. }
  destruct (N.ltb_spec c 0x10000).
  { assert (N.shiftr c 12 < 16) by (apply shiftr_below; simpl; lia).
    destruct ((0xD800 <=? c) && (c <=? 0xDFFF)); [exact I|].
    repeat (apply Forall_cons; [cbv beta; lia|]); apply Forall_nil. }
  destruct (N.ltb_spec c 0x110000); [|exact I].
  assert (N.shiftr c 18 < 5) by (apply shiftr_below; simpl; lia).
  repeat (apply Forall_cons; [cbv beta; lia|]); apply Forall_nil.
Qed.

Lemma utf8_char_bytes (c : char) (bs : list N) :
  Urllib.utf8_encode_char c = Some bs -> Forall (fun b => b < 256) bs.
Proof.
  intros E; pose proof (utf8_char_bytes_small c) as H; rewrite E in H; exact H.
Qed.

Lemma utf8_bytes (s : str) (bs : list N) :
  Urllib.utf8_encode s = Some bs -> Forall (fun b => b < 256) bs.
Proof.
  revert bs; induction s as [|c s IH]; intros bs; simpl.
  - intros E; inversion E; constructor.
  - destruct (Urllib.utf8_encode_char c) as [b|] eqn:Ec; [|discriminate].
    destruct (Urllib.utf8_encode s) as [bs'|]; [|discriminate].
    intros E; inversion E; subst.
    apply Forall_app; split; [exact (utf8_char_bytes c b Ec) | apply IH; reflexivity].
Qed.

Lemma quote_byte_chars (b : N) :
  b < 256 -> Forall (fun c => url_char c = true) (Urllib.quote_byte b).
Proof.
  intros Hb.
  assert (H : all_below (N.to_nat 256)
                (fun b => forallb url_char (Urllib.quote_byte b)) = true)
    by (vm_compute; reflexivity).
  pose proof (all_below_spec _ _ H b) as Hc; cbv beta in Hc.
  rewrite N2Nat.id in Hc; specialize (Hc Hb).
  apply Forall_forall; rewrite forallb_forall in Hc; exact Hc.
Qed.

Lemma quote_plus_chars (s e : str) :
  outcome (Urllib.quote_plus s) = Ok e -> Forall (fun c => url_char c = true) e.
Proof.
  unfold Urllib.quote_plus.
  destruct (Urllib.utf8_encode s) as [bs|] eqn:E; [|discriminate].
  intros H; inversion H; subst; clear H.
  pose proof (utf8_bytes s bs E) as Hbs; clear E.
  induction Hbs as [|b bs Hb _ IH]; [constructor|].
  simpl; apply Forall_app; split; [apply quote_byte_chars; exact Hb | exact IH].
Qed.

Lemma utf8_char_encodable (c : char) :
  Urllib.utf8_encode_char c = None <-> encodable_char c = false.
Proof.
  unfold Urllib.utf8_encode_char, encodable_char.
  destruct (N.ltb_spec c 0x80), (N.ltb_spec c 0x800), (N.ltb_spec c 0x10000),
    (N.ltb_spec c 0x110000), (N.leb_spec 0xD800 c), (N.leb_spec c 0xDFFF);
    cbn [andb negb]; split; intros E; try discriminate E; try reflexivity; lia.
Qed.

Lemma utf8_encodable (s : str) :
  Urllib.utf8_encode s = None <-> encodable s = false.
Proof.
  induction s as [|c s IH]; simpl; [split; discriminate|].
  unfold encodable in *; cbn [forallb].
  destruct (Urllib.utf8_encode_char c) as [b|] eqn:Ec.
  - assert (Hc : encodable_char c = true).
    { destruct (encodable_char c) eqn:E; [reflexivity|].
      apply utf8_char_encodable in E; congruence. }
    rewrite Hc; cbn [andb].
    destruct (Urllib.utf8_encode s) as [bs|].
    + split; [discriminate|]; intros H; apply IH in H; discriminate H.
    + split; [intros _; apply IH; reflexivity | reflexivity].
  - apply utf8_char_encodable in Ec; rewrite Ec; split; reflexivity.
Qed.

Lemma build_url_parts (config : Config.t) (artist title ts url : str) :
  outcome (_build_url config artist title ts) = Ok url ->
  exists T A,
    outcome (Urllib.quote_plus title) = Ok T
    /\ outcome (Urllib.quote_plus artist) = Ok A
    /\ url = Config.api_endpoint config ++ py "?rpuid="
               ++ str_of_Z (Config.rpuid config) ++ py "&startTime=" ++ ts
               ++ py "&title=" ++ T ++ py "&artist=" ++ A.
Proof.
  unfold _build_url, Urllib.quote_plus.
  destruct (Urllib.utf8_encode artist) as [ba|]; [|discriminate].
  destruct (Urllib.utf8_encode title) as [bt|]; [|discriminate].
  cbn [bind ret outcome snd app]; intros H; inversion H; subst; clear H.
  eexists; eexists; split; [reflexivity|]; split; [reflexivity|].
  change (py "?rpuid=") with (py "?" ++ py "rpuid=").
  change (py "&startTime=") with (py "&" ++ py "startTime=").
  change (py "&title=") with (py "&" ++ py "title=").
  change (py "&artist=") with (py "&" ++ py "artist=").
  rewrite <- !app_assoc; reflexivity.
Qed.

(** X6.  A URL that [_build_url] returns is the endpoint followed by
    [?rpuid=<id>&startTime=<timestamp>&title=<T>&artist=<A>], where [T]
    and [A] are the encoded title and artist and hold nothing but letters,
    digits, [_.-~], the plus sign and the percent sign.  So no [&], [=],
    [?], [#], [/] or space of a title or an artist reaches the query: a
    value cannot add or end a parameter. *)
Theorem X6_encoded_values_stay_in_their_parameter (config : Config.t)
        (artist title ts url : str) :
  outcome (_build_url config artist title ts) = Ok url ->
  exists T A,
    outcome (Urllib.quote_plus title) = Ok T
    /\ outcome (Urllib.quote_plus artist) = Ok A
    /\ url = Config.api_endpoint config ++ py "?rpuid="
               ++ str_of_Z (Config.rpuid config) ++ py "&startTime=" ++ ts
               ++ py "&title=" ++ T ++ py "&artist=" ++ A
    /\ Forall (fun c => url_char c = true) (T ++ A)
    /\ (forall c, In c (T ++ A) ->
          c <> 38 /\ c <> 61 /\ c <> 63 /\ c <> 35 /\ c <> 47 /\ c <> 32).
Proof.
  intros H; destruct (build_url_parts _ _ _ _ _ H) as [T [A [HT [HA E]]]].
  exists T, A; split; [exact HT|]; split; [exact HA|]; split; [exact E|].
  assert (Hall : Forall (fun c => url_char c = true) (T ++ A)).
  { apply Forall_app; split; eapply quote_plus_chars; eassumption. }
  split; [exact Hall|].
  intros c Hin; rewrite Forall_forall in Hall; specialize (Hall c Hin).
  repeat split; intros ->; discriminate Hall.
Qed.

Lemma X6_witness :
  exists T A,
    outcome (Urllib.quote_plus (py "Rock & Roll / Pt. 2?")) = Ok T
    /\ outcome (Urllib.quote_plus (py "AC/DC=#1")) = Ok A
    /\ py "https://np.example.org/api?rpuid=1042&startTime=2024-06-01T12:00:00&title=Rock+%26+Roll+%2F+Pt.+2%3F&artist=AC%2FDC%3D%231"
       = Config.api_endpoint Examples.config ++ py "?rpuid="
           ++ str_of_Z (Config.rpuid Examples.config) ++ py "&startTime="
           ++ py "2024-06-01T12:00:00" ++ py "&title=" ++ T ++ py "&artist=" ++ A
    /\ Forall (fun c => url_char c = true) (T ++ A)
    /\ (forall c, In c (T ++ A) ->
          c <> 38 /\ c <> 61 /\ c <> 63 /\ c <> 35 /\ c <> 47 /\ c <> 32).
Proof.
  apply (X6_encoded_values_stay_in_their_parameter Examples.config
           (py "AC/DC=#1") (py "Rock & Roll / Pt. 2?")
           (py "2024-06-01T12:00:00")).
  vm_compute; reflexivity.
Defined.

(** The request step in full. *)
Lemma request_run (config : Config.t) (w : world) (artist title url : str) :
  request config w artist title url =
  ([Log DEBUG (py "POST Request: " ++ url); HttpPost url (auth config) 30]
     ++ match http_post w url (auth config) 30 with
        | Response status =>
            if (400 <=? status) && (status <? 600)
            then [Log ERROR (py "API request failed: " ++ str_of_N status
                                ++ (if status <? 500 then py " Client Error"
                                    else py " Server Error"))]
            else [Log INFO (py "Successfully posted: " ++ artist ++ py " - "
                               ++ title)]
        | Fails e =>
            if is_RequestException e
            then [Log ERROR (py "API request failed: " ++ message e)]
            else []
        end,
   classify (http_post w url (auth config) 30)).
Proof.
  unfold request, session_post, classify.
  fold (auth config).
  destruct (http_post w url (auth config) 30) as [status|e] eqn:E.
  - cbn [bind logging emit ret app].
    rewrite raise_for_status_spec.
    destruct ((400 <=? status) && (status <? 600)); reflexivity.
  - simpl; destruct (is_RequestException e); reflexivity.
Qed.

(** [post_now_playing] once the fields have passed the validation. *)
Lemma post_now_playing_run (config : Config.t) (w : world)
      (artist title : str) :
  blank artist = false -> blank title = false ->
  post_now_playing config w artist title =
  match outcome (_build_url config artist title
                   (strftime (datetime_now w (resolved_zone config w)))) with
  | Ok url =>
      (zone_warning config w ++ trace (request config w artist title url),
       outcome (request config w artist title url))
  | Raise e => (zone_warning config w, Raise e)
  end.
Proof.
  intros Ha Ht.
  rewrite (post_now_playing_solid config w artist title Ha Ht), timestamp_spec.
  cbn [bind].
  rewrite (M_eta (_build_url config artist title _)), build_url_quiet.
  destruct (outcome (_build_url config artist title _)) as [url|e].
  - cbn [bind app outcome snd].
    destruct (request config w artist title url) as [tr r]; reflexivity.
  - cbn [bind app outcome snd]; rewrite app_nil_r; reflexivity.
Qed.

Lemma build_url_unencodable (config : Config.t) (artist title ts : str) :
  encodable artist && encodable title = false ->
  outcome (_build_url config artist title ts)
  = Raise (mk_exn UnicodeEncodeError (py "surrogates not allowed")).
Proof.
  intros H; unfold _build_url, Urllib.quote_plus.
  destruct (Urllib.utf8_encode artist) as [ba|] eqn:Ea; [|reflexivity].
  destruct (Urllib.utf8_encode title) as [bt|] eqn:Et; [|reflexivity].
  exfalso; apply andb_false_iff in H; destruct H as [H|H];
    apply utf8_encodable in H; congruence.
Qed.

Lemma build_url_encodable (config : Config.t) (artist title ts : str) :
  encodable artist && encodable title = true ->
  exists url, outcome (_build_url config artist title ts) = Ok url.
Proof.
  intros H; apply andb_true_iff in H; destruct H as [Ha Ht].
  unfold _build_url, Urllib.quote_plus.
  destruct (Urllib.utf8_encode artist) as [ba|] eqn:Ea;
    [|apply utf8_encodable in Ea; congruence].
  destruct (Urllib.utf8_encode title) as [bt|] eqn:Et;
    [|apply utf8_encodable in Et; congruence].
  eexists; reflexivity.
Qed.

(** X7.  With fields that are not blank, [post_now_playing] sends its one
    request exactly when both fields can be encoded as UTF-8.  A field with
    a surrogate code point makes it raise [UnicodeEncodeError] before the
    request step: nothing is sent and nothing but the time zone warning, if
    there is one, is logged. *)
Theorem X7_unencodable_field_sends_nothing (config : Config.t) (w : world)
        (artist title : str) :
  ~ all_space artist -> ~ all_space title ->
  (encodable artist && encodable title = true ->
   exists url, http_posts (trace (post_now_playing config w artist title)) = [url])
  /\ (encodable artist && encodable title = false ->
      post_now_playing config w artist title
      = (zone_warning config w,
         Raise (mk_exn UnicodeEncodeError (py "surrogates not allowed")))
      /\ http_posts (trace (post_now_playing config w artist title)) = []).
Proof.
  intros Ha Ht; apply not_blank_not_all_space in Ha, Ht; split.
  - intros He.
    destruct (build_url_encodable config artist title
                (strftime (datetime_now w (resolved_zone config w))) He)
      as [url Hu].
    exists url.
    exact (proj1 (post_now_playing_posts config w artist title url Ha Ht Hu)).
  - intros He.
    rewrite (post_now_playing_run config w artist title Ha Ht).
    rewrite (build_url_unencodable config artist title _ He).
    split; [reflexivity|].
    cbn [trace fst]; unfold zone_warning.
    destruct (timezone_db w (Config.timezone config)); reflexivity.
Qed.

Lemma X7_witness :
  let w := Examples.world_with Examples.queen (Response 200) Examples.london
             0%Q in
  http_posts (trace (post_now_playing Examples.config w (py "Queen")
                       [0x41; 0xD83C])) = [].
Proof.
  intros w.
  refine (proj2 (proj2 (X7_unencodable_field_sends_nothing Examples.config w
                          (py "Queen") [0x41; 0xD83C] _ _) _)).
  - intros H; apply strip_all_space in H; vm_compute in H; discriminate H.
  - intros H; apply strip_all_space in H; vm_compute in H; discriminate H.
  - vm_compute; reflexivity.
Defined.

(** X8.  [post_now_playing] swallows the exceptions of [requests] and no
    others.  When the request ends in any other exception, that exception
    leaves [post_now_playing] as it is: the request was sent, no result is
    returned and nothing is logged after the debug line of the request. *)
Theorem X8_other_exceptions_pass_through (config : Config.t) (w : world)
        (artist title url : str) (e : exn) :
  ~ all_space artist -> ~ all_space title ->
  outcome (_build_url config artist title
             (strftime (datetime_now w (resolved_zone config w)))) = Ok url ->
  http_post w url (auth config) 30 = Fails e ->
  is_RequestException e = false ->
  post_now_playing config w artist title
  = (zone_warning config w
       ++ [Log DEBUG (py "POST Request: " ++ url);
           HttpPost url (auth config) 30],
     Raise e).
Proof.
  intros Ha Ht Hu Hp He; apply not_blank_not_all_space in Ha, Ht.
  rewrite (post_now_playing_run config w artist title Ha Ht), Hu.
  rewrite request_run, Hp; cbn [classify trace outcome fst snd].
  rewrite He, app_nil_r; reflexivity.
Qed.

Lemma X8_witness :
  let w := Examples.world_with Examples.queen
             (Fails (mk_exn RuntimeError (py "boom"))) Examples.london 0%Q in
  outcome (post_now_playing Examples.config w (py "Queen")
             (py "Bohemian Rhapsody"))
  = Raise (mk_exn RuntimeError (py "boom")).
Proof.
  intros w.
  rewrite (X8_other_exceptions_pass_through Examples.config w (py "Queen")
             (py "Bohemian Rhapsody")
             (py "https://np.example.org/api?rpuid=1042&startTime=2024-06-01T12:00:00&title=Bohemian+Rhapsody&artist=Queen")
             (mk_exn RuntimeError (py "boom"))).
  - reflexivity.
  - intros H; apply strip_all_space in H; vm_compute in H; discriminate H.
  - intros H; apply strip_all_space in H; vm_compute in H; discriminate H.
  - vm_compute; reflexivity.
  - reflexivity.
  - reflexivity.
Defined.

(** X9.  Every result [post_now_playing] returns is in the log: [True]
    comes with the line [Successfully posted: <artist> - <title>] as the
    last of the trace, [False] with a warning or an error as the last, and
    that success line is logged in no other case. *)
Theorem X9_every_result_is_logged (config : Config.t) (w : world)
        (artist title : str) :
  let success :=
    Log INFO (py "Successfully posted: " ++ artist ++ py " - " ++ title) in
  (outcome (post_now_playing config w artist title) = Ok true ->
   exists before,
     trace (post_now_playing config w artist title) = before ++ [success])
  /\ (outcome (post_now_playing config w artist title) = Ok false ->
      exists before msg,
        trace (post_now_playing config w artist title)
        = before ++ [Log WARNING msg]
        \/ trace (post_now_playing config w artist title)
           = before ++ [Log ERROR msg])
  /\ (outcome (post_now_playing config w artist title) <> Ok true ->
      forall before after,
        trace (post_now_playing config w artist title)
        <> before ++ success :: after).
Proof.
  intros success.
  destruct (blank artist || blank title) eqn:Hb.
  - destruct (post_now_playing_blank config w artist title Hb) as [msg ->].
    cbn [outcome trace fst snd].
    split; [discriminate|]; split.
    + intros _; exists [], msg; left; reflexivity.
    + intros _ [|x [|y before]] after H; inversion H.
  - apply orb_false_iff in Hb; destruct Hb as [Ha Ht].
    rewrite (post_now_playing_run config w artist title Ha Ht).
    destruct (outcome (_build_url config artist title _)) as [url|e].
    + rewrite request_run; cbn [trace outcome fst snd].
      assert (Hz : forall before after, zone_warning config w
                                        <> before ++ success :: after).
      { unfold zone_warning; intros before after.
        destruct (timezone_db w (Config.timezone config));
          destruct before as [|x [|y before]]; discriminate. }
      assert (Hno : forall tail before after,
                 (forall b a, tail <> b ++ success :: a) ->
                 zone_warning config w
                   ++ [Log DEBUG (py "POST Request: " ++ url);
                       HttpPost url (auth config) 30] ++ tail
                 <> before ++ success :: after).
      { intros tail before after Htail H.
        unfold zone_warning in H.
        destruct (timezone_db w (Config.timezone config));
          cbn [app] in H;
          repeat (destruct before as [|? before];
                  [discriminate H | injection H as _ H]);
          exact (Htail _ _ H). }
      set (sent := [Log DEBUG (py "POST Request: " ++ url);
                    HttpPost url (auth config) 30]) in *.
      destruct (http_post w url (auth config) 30) as [status|e];
        cbn [classify].
      * destruct ((400 <=? status) && (status <? 600)).
        -- split; [discriminate|]; split.
           ++ intros _; exists (zone_warning config w ++ sent); eexists; right.
              apply app_assoc.
           ++ intros _ before after; apply Hno.
              intros [|x [|y b]] a H; inversion H.
        -- split; [|split; [discriminate | congruence]].
           intros _; exists (zone_warning config w ++ sent); apply app_assoc.
      * destruct (is_RequestException e).
        -- split; [discriminate|]; split.
           ++ intros _; exists (zone_warning config w ++ sent); eexists; right.
              apply app_assoc.
           ++ intros _ before after; apply Hno.
              intros [|x [|y b]] a H; inversion H.
        -- split; [discriminate|]; split; [discriminate|].
           intros _ before after; apply Hno.
           intros [|x b] a H; inversion H.
    + cbn [trace outcome fst snd].
      split; [discriminate|]; split; [discriminate|].
      intros _ before after; unfold zone_warning.
      destruct (timezone_db w (Config.timezone config));
        destruct before as [|x [|y before]]; discriminate.
Qed.

Lemma X9_witness :
  let w := Examples.world_with Examples.queen (Response 503) Examples.london
             0%Q in
  exists before msg,
    trace (post_now_playing Examples.config w (py "Queen") (py "Innuendo"))
    = before ++ [Log WARNING msg]
    \/ trace (post_now_playing Examples.config w (py "Queen") (py "Innuendo"))
       = before ++ [Log ERROR msg].
Proof.
  intros w.
  apply (proj1 (proj2 (X9_every_result_is_logged Examples.config w
                         (py "Queen") (py "Innuendo")))).
  vm_compute; reflexivity.
Defined.

End ReporterExtras.

(** ** One pass: log lines around at most one request *)

Section Passes.

Lemma logs_are_silent (l : list effect) :
  forallb is_log l = true ->
  requests l = [] /\ http_posts l = [] /\ observer_calls l = [].
Proof.
  induction l as [|e l IH]; [auto|].
  cbn [forallb]; intros H; apply andb_true_iff in H; destruct H as [He Hl].
  destruct e; try discriminate He.
  destruct (IH Hl) as [H1 [H2 H3]]; unfold observer_calls in *; simpl; auto.
Qed.

Lemma requests_app (t1 t2 : list effect) :
  requests (t1 ++ t2) = requests t1 ++ requests t2.
Proof.
  induction t1 as [|e t1 IH]; [reflexivity|].
  destruct e; simpl; rewrite IH; reflexivity.
Qed.

Lemma observer_calls_app (t1 t2 : list effect) :
  observer_calls (t1 ++ t2) = observer_calls t1 ++ observer_calls t2.
Proof. apply filter_app. Qed.

Lemma one_pass_requests (config : Config.t) (t : list effect) :
  one_pass config t ->
  Forall (configured config) (requests t)
  /\ (List.length (http_posts t) <= 1)%nat
  /\ observer_calls t = [].
Proof.
  intros [l1 [mid [l2 [-> [H1 [H2 Hmid]]]]]].
  destruct (logs_are_silent l1 H1) as [R1 [P1 O1]].
  destruct (logs_are_silent l2 H2) as [R2 [P2 O2]].
  rewrite !requests_app, !http_posts_app, !observer_calls_app.
  rewrite R1, R2, P1, P2, O1, O2.
  destruct Hmid as [->|[url [limit [-> Hc]]]]; simpl.
  - split; [apply Forall_nil|]; split; [lia | reflexivity].
  - split; [apply Forall_cons; [exact Hc | apply Forall_nil]|].
    split; [lia | reflexivity].
Qed.

Lemma one_pass_logs (config : Config.t) (l : list effect) :
  forallb is_log l = true -> one_pass config l.
Proof.
  intros H; exists l, [], []; rewrite app_nil_r.
  repeat split; auto.
Qed.

Lemma one_pass_wrap (config : Config.t) (pre t post : list effect) :
  forallb is_log pre = true -> forallb is_log post = true ->
  one_pass config t -> one_pass config (pre ++ t ++ post).
Proof.
  intros Hpre Hpost [l1 [mid [l2 [-> [H1 [H2 Hmid]]]]]].
  exists (pre ++ l1), mid, (l2 ++ post); split.
  - rewrite <- !app_assoc; reflexivity.
  - rewrite !forallb_app, Hpre, Hpost, H1, H2; auto.
Qed.

Lemma zone_warning_logs (config : Config.t) (w : world) :
  forallb is_log (zone_warning config w) = true.
Proof.
  unfold zone_warning; destruct (timezone_db w (Config.timezone config));
    reflexivity.
Qed.

Lemma post_now_playing_one_pass (config : Config.t) (w : world)
      (artist title : str) :
  one_pass config (trace (RadioPlayerAPI.post_now_playing config w artist title)).
Proof.
  destruct (blank artist || blank title) eqn:Hb.
  - destruct (post_now_playing_blank config w artist title Hb) as [msg ->].
    apply one_pass_logs; reflexivity.
  - apply orb_false_iff in Hb; destruct Hb as [Ha Ht].
    rewrite (post_now_playing_run config w artist title Ha Ht).
    destruct (outcome (RadioPlayerAPI._build_url config artist title _))
      as [url|e] eqn:Hu.
    + rewrite request_run; cbn [trace fst].
      destruct (build_url_parts _ _ _ _ _ Hu) as [T [A [_ [_ Eurl]]]].
      exists (zone_warning config w ++ [Log DEBUG (py "POST Request: " ++ url)]),
        [HttpPost url (auth config) 30].
      eexists; split; [rewrite <- !app_assoc; reflexivity|].
      split; [rewrite forallb_app, zone_warning_logs; reflexivity|].
      split.
      * destruct (http_post w url (auth config) 30) as [status|e].
        -- destruct ((400 <=? status) && (status <? 600)); reflexivity.
        -- destruct (is_RequestException e); reflexivity.
      * right; exists url, 30; split; [reflexivity|].
        split; [reflexivity|]; split; [reflexivity|].
        rewrite Eurl; eexists; reflexivity.
    + cbn [trace fst]; apply one_pass_logs, zone_warning_logs.
Qed.

Lemma parse_file_logs (w : world) (p : Path) :
  forallb is_log (trace (FileParser.parse_file w p)) = true.
Proof.
  destruct (path_exists w p) eqn:He.
  - destruct (read_text w p) as [raw|e] eqn:Hr.
    + rewrite (parse_file_readable w p raw He Hr).
      destruct (is_empty (strip raw)); reflexivity.
    + rewrite (parse_file_unreadable w p e He Hr); reflexivity.
  - rewrite (parse_file_missing w p He); reflexivity.
Qed.

Ltac flatten_lists :=
  repeat first [ rewrite <- app_assoc | rewrite app_nil_r | progress cbn [app] ].

Ltac all_logs Hp :=
  apply one_pass_logs; cbn; rewrite ?forallb_app, ?Hp; reflexivity.

(** Log lines around the one call of the reporter. *)
Ltac around_the_report Hp Hpost :=
  destruct Hpost as [l1 [mid [l2 [-> [H1 [H2 Hmid]]]]]];
  flatten_lists;
  match goal with
  | |- one_pass _ (?x :: ?tp ++ ?y :: ?a ++ ?m ++ ?rest) =>
      exists (x :: tp ++ y :: a), m, rest
  | |- one_pass _ (?tp ++ ?y :: ?a ++ ?m ++ ?rest) =>
      exists (tp ++ y :: a), m, rest
  end;
  split; [flatten_lists; reflexivity|];
  split; [repeat first [ rewrite forallb_app | rewrite Hp | rewrite H1
                       | progress cbn [forallb is_log andb] ]; reflexivity|];
  split; [rewrite ?forallb_app, H2; reflexivity | exact Hmid].

Lemma process_file_change_one_pass (self : FileChangeHandler.t) (w : world) :
  one_pass (FileChangeHandler.api_client self)
           (trace (FileChangeHandler._process_file_change self w)).
Proof.
  unfold FileChangeHandler._process_file_change.
  pose proof (parse_file_logs w (FileChangeHandler.file_path self)) as Hp.
  destruct (FileParser.parse_file w (FileChangeHandler.file_path self))
    as [tp [[[a|] [t|]]|e]]; cbn [trace fst] in Hp; try (all_logs Hp).
  cbn [bind logging emit ret].
  destruct (truthy a && truthy t); [|all_logs Hp].
  pose proof (post_now_playing_one_pass (FileChangeHandler.api_client self)
                w a t) as Hpost.
  destruct (RadioPlayerAPI.post_now_playing
              (FileChangeHandler.api_client self) w a t) as [tr [b|e]];
    cbn [trace fst] in Hpost;
    cbn [bind ret try_except trace fst app logging emit is_Exception];
    around_the_report Hp Hpost.
Qed.

Lemma process_initial_file_one_pass (config : Config.t) (w : world) :
  one_pass config (trace (RadioPlayerMonitor._process_initial_file config w)).
Proof.
  unfold RadioPlayerMonitor._process_initial_file.
  pose proof (parse_file_logs w (Config.file_path config)) as Hp.
  destruct (FileParser.parse_file w (Config.file_path config))
    as [tp [[[a|] [t|]]|e]]; cbn [trace fst] in Hp; try (all_logs Hp).
  cbn [bind logging emit ret].
  destruct (truthy a && truthy t); [|all_logs Hp].
  pose proof (post_now_playing_one_pass config w a t) as Hpost.
  destruct (RadioPlayerAPI.post_now_playing config w a t) as [tr [b|e]];
    cbn [trace fst] in Hpost;
    cbn [bind ret try_except trace fst app logging emit is_Exception];
    around_the_report Hp Hpost.
Qed.

End Passes.

(** ** Runs of events *)

Section Runs.

Import FileChangeHandler.

Lemma after_event_fields (self : t) (ew : event * world) :
  file_path (after_event self ew) = file_path self
  /\ api_client (after_event self ew) = api_client self.
Proof.
  destruct ew as [ev w]; unfold after_event.
  destruct (is_directory ev); [auto|].
  destruct (negb (str_eqb (src_path ev) (file_path self))); [auto|].
  destruct (Qltb (time_time w - last_modified self) 1); auto.
Qed.

Lemma not_accepted_after (self : t) (ev : event) (w : world) :
  accepted self ev w = false -> after_event self (ev, w) = self.
Proof.
  unfold accepted, after_event.
  destruct (is_directory ev); [reflexivity|].
  destruct (str_eqb (src_path ev) (file_path self)); [|reflexivity].
  destruct (Qltb (time_time w - last_modified self) 1); [reflexivity|].
  discriminate.
Qed.

Lemma accepted_after (self : t) (ev : event) (w : world) :
  accepted self ev w = true ->
  after_event self (ev, w) = set_last_modified self (time_time w)
  /\ (1 <= time_time w - last_modified self)%Q
  /\ eligibleb self ev = true.
Proof.
  unfold accepted, after_event, eligibleb.
  destruct (is_directory ev); [discriminate|].
  destruct (str_eqb (src_path ev) (file_path self)); [|discriminate].
  destruct (Qltb (time_time w - last_modified self) 1) eqn:E; [discriminate|].
  intros _; split; [reflexivity|]; split; [|reflexivity].
  apply Qltb_ge; exact E.
Qed.

Lemma not_eligible_ignored (self : t) (ev : event) (w : world) :
  eligibleb self ev = false -> on_modified self ev w = ([], Ok self).
Proof.
  unfold eligibleb, on_modified.
  destruct (is_directory ev); [reflexivity|].
  destruct (str_eqb (src_path ev) (file_path self)); [discriminate|reflexivity].
Qed.

Lemma eligibleb_after (self : t) (ew : event * world) (ev : event) :
  eligibleb (after_event self ew) ev = eligibleb self ev.
Proof.
  unfold eligibleb; rewrite (proj1 (after_event_fields self ew)); reflexivity.
Qed.

Lemma eligibleb_same_path (self self' : t) (ev : event) :
  file_path self' = file_path self -> eligibleb self' ev = eligibleb self ev.
Proof. unfold eligibleb; intros ->; reflexivity. Qed.

Lemma last_of_nonempty {A} (x : A) (l : list A) (d d' : A) :
  last (x :: l) d = last (x :: l) d'.
Proof.
  revert x; induction l as [|y l IH]; intros x; [reflexivity|].
  change (last (x :: y :: l) d) with (last (y :: l) d).
  change (last (x :: y :: l) d') with (last (y :: l) d').
  apply IH.
Qed.

Lemma bind_silent {A B} (a : A) (k : A -> M B) : bind ([], Ok a) k = k a.
Proof. cbn [bind]; destruct (k a); reflexivity. Qed.

Lemma dispatch_processed (self : t) (events : list (event * world)) :
  trace (dispatch self events)
  = flat_map (fun hw => trace (_process_file_change (fst hw) (snd hw)))
             (processed self events).
Proof.
  revert self; induction events as [|[ev w] events IH]; intros self;
    [reflexivity|].
  rewrite dispatch_cons, on_modified_spec, IH; cbn [trace fst processed].
  destruct (accepted self ev w); reflexivity.
Qed.

Lemma processed_clients (self : t) (events : list (event * world)) :
  Forall (fun hw => api_client (fst hw) = api_client self)
         (processed self events).
Proof.
  revert self; induction events as [|[ev w] events IH]; intros self;
    [constructor|].
  cbn [processed].
  pose proof (after_event_fields self (ev, w)) as [_ Hc].
  specialize (IH (after_event self (ev, w))); rewrite Hc in IH.
  destruct (accepted self ev w); [constructor; [exact Hc | exact IH] | exact IH].
Qed.

Lemma processed_length (self : t) (events : list (event * world)) :
  (List.length (processed self events) <= List.length events)%nat.
Proof.
  revert self; induction events as [|[ev w] events IH]; intros self;
    [simpl; lia|].
  cbn [processed]; specialize (IH (after_event self (ev, w))).
  destruct (accepted self ev w); cbn [List.length]; lia.
Qed.

Lemma passes_requests (config : Config.t) (passes : list (t * world)) :
  Forall (fun hw => api_client (fst hw) = config) passes ->
  let run := flat_map (fun hw => trace (_process_file_change (fst hw) (snd hw)))
                      passes in
  Forall (configured config) (requests run)
  /\ (List.length (http_posts run) <= List.length passes)%nat
  /\ observer_calls run = [].
Proof.
  induction 1 as [|[h w] passes Hh _ IH]; cbn zeta in *.
  - repeat split; [constructor | simpl; lia].
  - cbn [flat_map fst snd] in *; subst config.
    destruct (one_pass_requests _ _ (process_file_change_one_pass h w))
      as [R [P O]].
    destruct IH as [R' [P' O']].
    rewrite requests_app, http_posts_app, observer_calls_app, length_app, O, O'.
    split; [apply Forall_app; split; assumption|].
    split; [simpl; lia | reflexivity].
Qed.

(** X10.  Events for a directory and events for another path change
    nothing: dropping them from the events a handler is given leaves the
    trace and the handler at the end as they are.  In particular such an
    event does not count for the debounce. *)
Theorem X10_other_events_are_invisible (self : t)
        (events : list (event * world)) :
  dispatch self (filter (fun ew => eligibleb self (fst ew)) events)
  = dispatch self events.
Proof.
  revert self; induction events as [|[ev w] events IH]; intros self;
    [reflexivity|].
  cbn [filter fst].
  destruct (eligibleb self ev) eqn:E.
  - cbn [dispatch]; rewrite on_modified_spec; cbn [bind].
    rewrite <- (IH (after_event self (ev, w))).
    rewrite (filter_ext (fun ew => eligibleb (after_event self (ev, w)) (fst ew))
                        (fun ew => eligibleb self (fst ew)))
      by (intros ew; apply eligibleb_after).
    reflexivity.
  - cbn [dispatch]; rewrite (not_eligible_ignored self ev w E), bind_silent.
    apply IH.
Qed.

(** X11.  What a run of events does is the processing of the accepted
    events, one after the other.  Each accepted event comes a second or
    more after the accepted one before it (the first after the handler's
    last accepted time), whatever the clock does in between; the handler
    ends with the time of the last accepted event; and the run sends at
    most one request for each accepted event, so never more requests than
    events. *)
Theorem X11_accepted_events_are_spaced (self : t)
        (events : list (event * world)) :
  let times := map (fun hw => time_time (snd hw)) (processed self events) in
  trace (dispatch self events)
  = flat_map (fun hw => trace (_process_file_change (fst hw) (snd hw)))
             (processed self events)
  /\ spaced (last_modified self) times
  /\ last_modified (fold_left after_event events self)
     = last times (last_modified self)
  /\ (List.length (http_posts (trace (dispatch self events)))
      <= List.length (processed self events) <= List.length events)%nat.
Proof.
  cbn zeta; split; [apply dispatch_processed|].
  split; [|split].
  - revert self; induction events as [|[ev w] events IH]; intros self;
      [exact I|].
    cbn [processed].
    destruct (accepted self ev w) eqn:E.
    + destruct (accepted_after self ev w E) as [-> [Hge _]].
      cbn [map spaced snd]; split; [exact Hge|].
      exact (IH (set_last_modified self (time_time w))).
    + rewrite (not_accepted_after self ev w E); apply IH.
  - revert self; induction events as [|[ev w] events IH]; intros self;
      [reflexivity|].
    cbn [processed fold_left].
    destruct (accepted self ev w) eqn:E.
    + destruct (accepted_after self ev w E) as [-> _].
      rewrite IH; cbn [map snd].
      destruct (map _ (processed (set_last_modified self (time_time w)) events))
        as [|q l]; [reflexivity|].
      change (last (time_time w :: q :: l) (last_modified self))
        with (last (q :: l) (last_modified self)).
      apply last_of_nonempty.
    + rewrite (not_accepted_after self ev w E); apply IH.
  - split; [|apply processed_length].
    rewrite dispatch_processed.
    exact (proj1 (proj2 (passes_requests (api_client self) _
                           (processed_clients self events)))).
Qed.

Lemma X11_witness :
  let ev := mk_event false Examples.watched in
  let at_ clock := Examples.world_with Examples.queen (Response 200)
                     Examples.london clock in
  map (fun hw => time_time (snd hw))
      (processed Examples.handler
         [(ev, at_ 1700000000%Q); (ev, at_ (17000000005 # 10)%Q);
          (ev, at_ 1699999999%Q); (ev, at_ 1700000001%Q)])
  = [1700000000%Q; 1700000001%Q]
  /\ spaced 0%Q [1700000000%Q; 1700000001%Q].
Proof.
  intros ev at_.
  assert (E : map (fun hw => time_time (snd hw))
                  (processed Examples.handler
                     [(ev, at_ 1700000000%Q); (ev, at_ (17000000005 # 10)%Q);
                      (ev, at_ 1699999999%Q); (ev, at_ 1700000001%Q)])
              = [1700000000%Q; 1700000001%Q]) by (vm_compute; reflexivity).
  split; [exact E|].
  rewrite <- E.
  exact (proj1 (proj2 (X11_accepted_events_are_spaced Examples.handler _))).
Defined.

End Runs.

(** ** Whole sessions *)

Section Sessions.

Import RadioPlayerMonitor.

Lemma fresh_handler_accepts (config : Config.t)
      (ev : FileChangeHandler.event) (w : world) :
  eligible (FileChangeHandler.__init__ (Config.file_path config) config) ev ->
  (1 <= time_time w)%Q ->
  accepted (FileChangeHandler.__init__ (Config.file_path config) config) ev w
  = true.
Proof.
  intros He Hw; rewrite (eligible_accepted _ _ _ He).
  apply negb_true_iff, Qltb_ge.
  cbn [FileChangeHandler.last_modified FileChangeHandler.__init__]; lra.
Qed.

(** X12.  Every request of a session, from the initial pass or from an
    event, carries the user name and the key of the configuration as its
    credentials and the time limit of 30 seconds, and its URL starts with
    the endpoint of the configuration, [?rpuid=] and the station
    identifier. *)
Theorem X12_every_request_is_configured (config : Config.t) (w : world)
        (events : list (FileChangeHandler.event * world)) :
  Forall (configured config) (requests (trace (start_monitoring config w events))).
Proof.
  destruct (path_exists w (Config.file_path config)) eqn:He.
  - rewrite (start_monitoring_spec config w events He); cbn [trace fst].
    rewrite !requests_app, dispatch_processed.
    apply Forall_app; split.
    + exact (proj1 (one_pass_requests _ _
                      (process_initial_file_one_pass config w))).
    + cbn [requests app].
      apply Forall_app; split; [|constructor].
      exact (proj1 (passes_requests config _
                      (processed_clients
                         (FileChangeHandler.__init__ (Config.file_path config)
                            config) events))).
  - rewrite (start_monitoring_missing config w events He); constructor.
Qed.

(** X13.  The initial pass does not count for the debounce: the handler
    starts with no accepted event.  So the first event for the watched file
    is processed whenever the clock reads a second or more since the epoch,
    however soon it follows the initial pass. *)
Theorem X13_initial_pass_does_not_debounce (config : Config.t) (w : world)
        (ev : FileChangeHandler.event) (w1 : world)
        (events : list (FileChangeHandler.event * world)) :
  let fresh := FileChangeHandler.__init__ (Config.file_path config) config in
  let first := FileChangeHandler.set_last_modified fresh (time_time w1) in
  path_exists w (Config.file_path config) = true ->
  eligible fresh ev ->
  (1 <= time_time w1)%Q ->
  trace (start_monitoring config w ((ev, w1) :: events))
  = trace (_process_initial_file config w)
      ++ [ObserverSchedule (Config.file_path config); ObserverStart;
          Log INFO (py "Started monitoring: " ++ Config.file_path config)]
      ++ trace (FileChangeHandler._process_file_change first w1)
      ++ trace (FileChangeHandler.dispatch first events)
      ++ [Log INFO (py "Received interrupt signal, stopping...");
          ObserverStop; Log INFO (py "File monitoring stopped")].
Proof.
  intros fresh first He Hev Hw; subst first fresh.
  rewrite (start_monitoring_spec config w _ He); cbn [trace fst].
  rewrite dispatch_cons, on_modified_spec; cbn [trace fst].
  rewrite (fresh_handler_accepts config ev w1 Hev Hw).
  destruct (accepted_after _ ev w1
              (fresh_handler_accepts config ev w1 Hev Hw)) as [-> _].
  rewrite <- !app_assoc; reflexivity.
Qed.

Lemma X13_witness :
  let ev := FileChangeHandler.mk_event false Examples.watched in
  let w := Examples.world_with Examples.queen (Response 200) Examples.london
             1700000000%Q in
  let w1 := Examples.world_with (py "Artist: Abba" ++ [0x0A] ++ py "Title: SOS")
              (Response 200) Examples.london (17000000001 # 10)%Q in
  List.length (http_posts (trace (start_monitoring Examples.config w [(ev, w1)])))
  = 2%nat.
Proof.
  intros ev w w1.
  rewrite (X13_initial_pass_does_not_debounce Examples.config w ev w1 []).
  - vm_compute; reflexivity.
  - reflexivity.
  - split; reflexivity.
  - vm_compute; discriminate.
Defined.

(** X14.  A session that finds the watched file schedules the observer,
    starts it and, at the end, stops it: once each, in that order, and
    neither the initial pass nor the handling of any event touches the
    observer.  A session that does not find the file never creates the
    observer and so does not stop one. *)
Theorem X14_observer_started_and_stopped (config : Config.t) (w : world)
        (events : list (FileChangeHandler.event * world)) :
  observer_calls (trace (start_monitoring config w events))
  = if path_exists w (Config.file_path config)
    then [ObserverSchedule (Config.file_path config); ObserverStart;
          ObserverStop]
    else [].
Proof.
  destruct (path_exists w (Config.file_path config)) eqn:He.
  - rewrite (start_monitoring_spec config w events He); cbn [trace fst].
    rewrite !observer_calls_app, dispatch_processed.
    rewrite (proj2 (proj2 (one_pass_requests _ _
                             (process_initial_file_one_pass config w)))).
    rewrite (proj2 (proj2 (passes_requests config _
                             (processed_clients
                                (FileChangeHandler.__init__
                                   (Config.file_path config) config) events)))).
    reflexivity.
  - rewrite (start_monitoring_missing config w events He); reflexivity.
Qed.

(** X15.  Nothing is sent twice: a session sends at most one request for
    the initial pass and one for each accepted event, so at most one more
    than it is given events; a failed request is not tried again. *)
Theorem X15_one_request_per_pass (config : Config.t) (w : world)
        (events : list (FileChangeHandler.event * world)) :
  (List.length (http_posts (trace (start_monitoring config w events)))
   <= 1 + List.length
            (processed (FileChangeHandler.__init__ (Config.file_path config)
                          config) events)
   <= 1 + List.length events)%nat.
Proof.
  split; [|pose proof (processed_length
                         (FileChangeHandler.__init__ (Config.file_path config)
                            config) events); lia].
  destruct (path_exists w (Config.file_path config)) eqn:He.
  - rewrite (start_monitoring_spec config w events He); cbn [trace fst].
    rewrite !http_posts_app, !length_app, dispatch_processed.
    pose proof (initial_pass_at_most_once config w) as H1.
    pose proof (proj1 (proj2 (passes_requests config _
                                (processed_clients
                                   (FileChangeHandler.__init__
                                      (Config.file_path config) config) events))))
      as H2.
    cbn zeta in H2; cbn [http_posts List.length]; lia.
  - rewrite (start_monitoring_missing config w events He); simpl; lia.
Qed.

End Sessions.

(** ** Configuration and exit status *)

Section BootstrapExtras.

Import Bootstrap.

Lemma required_provided (rt : runtime) (key : str) :
  provided rt key ->
  exists value, getenv rt key = Some value
                /\ _get_required_env rt key = Built value.
Proof.
  intros [value [Hg Hv]]; exists value; split; [exact Hg|].
  unfold _get_required_env; rewrite Hg.
  destruct value; [congruence | reflexivity].
Qed.

Lemma required_missing (rt : runtime) (key : str) :
  ~ provided rt key ->
  _get_required_env rt key
  = ValueError (py "Required environment variable " ++ key ++ py " is not set").
Proof.
  intros H; unfold _get_required_env.
  destruct (getenv rt key) as [value|] eqn:Hg; [|reflexivity].
  destruct value; [reflexivity|].
  exfalso; apply H; eexists; split; [exact Hg | discriminate].
Qed.

Lemma required_built (rt : runtime) (key value : str) :
  _get_required_env rt key = Built value ->
  getenv rt key = Some value /\ provided rt key.
Proof.
  unfold _get_required_env, provided.
  destruct (getenv rt key) as [v|]; [|discriminate].
  destruct v as [|c v]; [discriminate|].
  intros H; inversion H; subst; split; [reflexivity|].
  eexists; split; [reflexivity | discriminate].
Qed.

Lemma required_split (before : list str) (key : str) (after : list str) :
  REQUIRED = before ++ key :: after ->
  (before = [] /\ key = py "API_USERNAME")
  \/ (before = [py "API_USERNAME"] /\ key = py "API_KEY")
  \/ (before = [py "API_USERNAME"; py "API_KEY"] /\ key = py "API_ENDPOINT")
  \/ (before = [py "API_USERNAME"; py "API_KEY"; py "API_ENDPOINT"]
      /\ key = py "FILE_PATH")
  \/ (before = [py "API_USERNAME"; py "API_KEY"; py "API_ENDPOINT";
                py "FILE_PATH"]
      /\ key = py "RPUID").
Proof.
  unfold REQUIRED.
  destruct before as [|b1 [|b2 [|b3 [|b4 [|b5 before]]]]]; cbn [app];
    intros H; inversion H; subst; auto 10.
  destruct before; discriminate.
Qed.

(** Use what is known of the variables that are provided. *)
Ltac use_provided rt :=
  repeat match goal with
         | H : Forall (provided rt) (_ :: _) |- _ =>
             let Hp := fresh "Hp" in
             let H' := fresh "Hrest" in
             let v := fresh "v" in
             let Hg := fresh "Hg" in
             let Hb := fresh "Hb" in
             inversion H as [|? ? Hp H']; subst; clear H;
             destruct (required_provided rt _ Hp) as [v [Hg Hb]];
             rewrite Hb; cbn [and_then]; clear Hp Hb
         | H : Forall (provided rt) [] |- _ => clear H
         end.

(** X16.  [Config()] is built exactly when the five required variables
    are set to values that are not empty and the text of [RPUID] is a
    number.  Otherwise it raises [ValueError]: for the first of
    [API_USERNAME], [API_KEY], [API_ENDPOINT], [FILE_PATH], [RPUID] that is
    unset or empty, naming it, or else with the message of [int].  The two
    optional variables are never an error: [TIMEZONE] is [UTC] when unset
    and is kept as it is when set, even to the empty text. *)
Theorem X16_config_needs_every_variable (rt : runtime) :
  (forall before key after,
      REQUIRED = before ++ key :: after ->
      Forall (provided rt) before -> ~ provided rt key ->
      Config__init__ rt
      = ValueError (py "Required environment variable " ++ key
                       ++ py " is not set"))
  /\ (Forall (provided rt) REQUIRED ->
      forall text msg,
        getenv rt (py "RPUID") = Some text -> int_of rt text = inr msg ->
        Config__init__ rt = ValueError msg)
  /\ (forall config,
         Config__init__ rt = Built config ->
         Forall (provided rt) REQUIRED
         /\ getenv rt (py "API_USERNAME") = Some (Config.api_username config)
         /\ getenv rt (py "API_KEY") = Some (Config.api_password config)
         /\ getenv rt (py "API_ENDPOINT") = Some (Config.api_endpoint config)
         /\ (exists text, getenv rt (py "FILE_PATH") = Some text
                          /\ Config.file_path config = path_of rt text)
         /\ (exists text, getenv rt (py "RPUID") = Some text
                          /\ int_of rt text = inl (Config.rpuid config))
         /\ (getenv rt (py "TIMEZONE") = None ->
             Config.timezone config = py "UTC")
         /\ (forall value, getenv rt (py "TIMEZONE") = Some value ->
                           Config.timezone config = value)).
Proof.
  split; [|split].
  - intros before key after Hsplit Hbefore Hkey.
    unfold Config__init__.
    destruct (required_split before key after Hsplit)
      as [[-> ->]|[[-> ->]|[[-> ->]|[[-> ->]|[-> ->]]]]];
      use_provided rt;
      rewrite (required_missing rt _ Hkey); reflexivity.
  - intros Hall text msg Hg Hint.
    unfold Config__init__, REQUIRED in *.
    use_provided rt.
    match goal with
    | H : getenv rt (py "RPUID") = Some ?v |- _ =>
        assert (v = text) as -> by congruence
    end.
    rewrite Hint; reflexivity.
  - intros config; unfold Config__init__, REQUIRED.
    destruct (_get_required_env rt (py "API_USERNAME")) as [u|] eqn:E1;
      [|discriminate].
    destruct (_get_required_env rt (py "API_KEY")) as [k|] eqn:E2;
      [|discriminate].
    destruct (_get_required_env rt (py "API_ENDPOINT")) as [e|] eqn:E3;
      [|discriminate].
    destruct (_get_required_env rt (py "FILE_PATH")) as [f|] eqn:E4;
      [|discriminate].
    destruct (_get_required_env rt (py "RPUID")) as [r|] eqn:E5;
      [|discriminate].
    cbn [and_then].
    destruct (int_of rt r) as [n|msg] eqn:Ei; [|discriminate].
    intros H; inversion H; subst; clear H.
    cbn [Config.api_username Config.api_password Config.api_endpoint
         Config.file_path Config.rpuid Config.timezone].
    apply required_built in E1, E2, E3, E4, E5.
    destruct E1 as [G1 P1], E2 as [G2 P2], E3 as [G3 P3], E4 as [G4 P4],
      E5 as [G5 P5].
    split; [repeat constructor; assumption|].
    repeat split; try assumption.
    + exists f; split; [exact G4 | reflexivity].
    + exists r; split; [exact G5 | exact Ei].
    + intros Hn; unfold _get_env; rewrite Hn; reflexivity.
    + intros value Hs; unfold _get_env; rewrite Hs; reflexivity.
Qed.

Lemma X16_witness :
  let rt := runtime_of
              [(py "API_USERNAME", py "station"); (py "API_KEY", py "secret");
               (py "API_ENDPOINT", py "https://np.example.org/api");
               (py "FILE_PATH", []); (py "RPUID", py "1042")] in
  Config__init__ rt
  = ValueError (py "Required environment variable FILE_PATH is not set").
Proof.
  intros rt.
  rewrite (proj1 (X16_config_needs_every_variable rt)
             [py "API_USERNAME"; py "API_KEY"; py "API_ENDPOINT"]
             (py "FILE_PATH") [py "RPUID"]).
  - vm_compute; reflexivity.
  - reflexivity.
  - repeat constructor.
    + exists (py "station"); split; [vm_compute; reflexivity | discriminate].
    + exists (py "secret"); split; [vm_compute; reflexivity | discriminate].
    + exists (py "https://np.example.org/api");
        split; [vm_compute; reflexivity | discriminate].
  - intros [value [Hg Hv]]; vm_compute in Hg; inversion Hg; subst.
    apply Hv; reflexivity.
Defined.



End BootstrapExtras.
